(** * Taskonaut: session bookkeeping, verified against the Python sources

    A shallow embedding of the session store ([core/json_database.py]),
    the configuration loader ([core/config_manager.py]), the daily
    evaluation sheet ([core/excel_report_manager.py]) and the quick
    project switch of the overlay ([gui/beautiful_clean_overlay.py]).

    Conventions.
    - Naive [datetime] values are records of their seven calendar fields,
      as in Python; differences are taken in microseconds through the
      proleptic Gregorian ordinal.
    - The [float] values of the report are IEEE binary64 values, computed
      with the operations of [SpecFloat] (round to nearest, ties to even);
      [sum] adds them from left to right, as it does up to Python 3.11.
      The threshold of the quick switch is compared as an exact rational
      ([Q]); [int(x)] truncates towards zero ([Z.quot]).
    - [uuid.uuid4()] and [datetime.now()] are inputs of the operations
      that call them.
    - An operation that raises returns [None]. *)

From Stdlib Require Import ZArith QArith Lia Ascii String.
From Stdlib Require Floats.SpecFloat.
From stdpp Require Import base option list strings gmap fin_maps sorting.

#[local] Set Warnings "-register-all".

Local Open Scope Z_scope.

(* ===================================================================== *)
(** ** Python values used by the stores                                   *)
(* ===================================================================== *)

(** What [json.load] can return and [json.dump] can write. *)
Inductive json :=
| JNull
| JBool (b : bool)
| JInt (n : Z)
| JFloat (q : Q)
| JStr (s : string)
| JArr (items : list json)
| JObj (fields : gmap string json).

(* ===================================================================== *)
(** ** Dates and times ([datetime] of the Python standard library)        *)
(* ===================================================================== *)

Module PyTime.

Record date := mkdate { d_year : Z; d_month : Z; d_day : Z }.

Record datetime := mkdatetime {
  year : Z; month : Z; day : Z;
  hour : Z; minute : Z; second : Z; microsecond : Z }.

(** [dt.date()] *)
Definition date_of (dt : datetime) : date := mkdate (year dt) (month dt) (day dt).

Definition date_eqb (a b : date) : bool :=
  (d_year a =? d_year b) && (d_month a =? d_month b) && (d_day a =? d_day b).

Definition is_leap (y : Z) : bool :=
  (y mod 4 =? 0) && (negb (y mod 100 =? 0) || (y mod 400 =? 0)).

Definition days_before_year (y : Z) : Z :=
  let p := y - 1 in p * 365 + p / 4 - p / 100 + p / 400.

Definition days_in_month (y m : Z) : Z :=
  if (m =? 2) && is_leap y then 29
  else nth (Z.to_nat m) [0; 31; 28; 31; 30; 31; 30; 31; 31; 30; 31; 30; 31] 0.

Definition days_before_month (y m : Z) : Z :=
  nth (Z.to_nat m) [0; 0; 31; 59; 90; 120; 151; 181; 212; 243; 273; 304; 334] 0
  + (if (2 <? m) && is_leap y then 1 else 0).

Definition ymd2ord (y m d : Z) : Z :=
  days_before_year y + days_before_month y m + d.

Definition date_toordinal (d : date) : Z := ymd2ord (d_year d) (d_month d) (d_day d).
Definition toordinal (dt : datetime) : Z := ymd2ord (year dt) (month dt) (day dt).

(** [d.weekday()]: Monday is 0. *)
Definition weekday (d : date) : Z := (date_toordinal d + 6) mod 7.

(** The range checks of the [datetime] constructor. *)
Definition valid_datetime (dt : datetime) : bool :=
  (1 <=? year dt) && (year dt <=? 9999) &&
  (1 <=? month dt) && (month dt <=? 12) &&
  (1 <=? day dt) && (day dt <=? days_in_month (year dt) (month dt)) &&
  (0 <=? hour dt) && (hour dt <=? 23) &&
  (0 <=? minute dt) && (minute dt <=? 59) &&
  (0 <=? second dt) && (second dt <=? 59) &&
  (0 <=? microsecond dt) && (microsecond dt <=? 999999).

(** Microseconds since the start of day 0 of the ordinal count. *)
Definition to_microseconds (dt : datetime) : Z :=
  ((toordinal dt * 86400 + hour dt * 3600 + minute dt * 60 + second dt) * 1000000)
  + microsecond dt.

(** [a - b], a [timedelta], as its number of microseconds. *)
Definition sub (a b : datetime) : Z := to_microseconds a - to_microseconds b.

(** [td.total_seconds()] *)
Definition total_seconds (td : Z) : Q := inject_Z td / inject_Z 1000000.

(** [int(td.total_seconds())] *)
Definition int_total_seconds (td : Z) : Z := Z.quot td 1000000.

(** Comparison of two datetimes: field by field, most significant first. *)
Definition fields (dt : datetime) : list Z :=
  [year dt; month dt; day dt; hour dt; minute dt; second dt; microsecond dt].

Fixpoint lex_ltb (a b : list Z) : bool :=
  match a, b with
  | [], [] => false
  | [], _ :: _ => true
  | _ :: _, [] => false
  | x :: a', y :: b' => (x <? y) || ((x =? y) && lex_ltb a' b')
  end.

Definition datetime_ltb (a b : datetime) : bool := lex_ltb (fields a) (fields b).

End PyTime.

(* ===================================================================== *)
(** ** Python's [float]: IEEE binary64                                    *)
(* ===================================================================== *)

Module PyFloat.
Import SpecFloat.

Definition prec : Z := 53.
Definition emax : Z := 1024.

Definition float : Type := spec_float.

Definition zero : float := S754_zero false.

(** [x + y], [x - y], [x / y] on floats *)
Definition add : float -> float -> float := SFadd prec emax.
Definition sub : float -> float -> float := SFsub prec emax.
Definition div : float -> float -> float := SFdiv prec emax.

(** [x == y] and [x <= y] on floats *)
Definition eqb : float -> float -> bool := SFeqb.
Definition leb : float -> float -> bool := SFleb.

(** [float(n)] of an [int], before the range check: the nearest float,
    an infinity when there is none. *)
Definition of_Z (n : Z) : float := binary_normalize prec emax n 0 false.

(** The float nearest to the quotient of two positive integers, with the
    sign given. *)
Definition div_pos (s : bool) (a b : positive) : float :=
  let '(m, e, l) := SFdiv_core_binary prec emax (Zpos a) 0 (Zpos b) 0 in
  binary_round_aux prec emax s m e l.

(** [a / b] of two [int]s, [b] positive: the float nearest to the exact
    quotient. *)
Definition true_divide (a : Z) (b : positive) : float :=
  match a with
  | Z0 => zero
  | Zpos p => div_pos false p b
  | Zneg p => div_pos true p b
  end.

(** The float that [json] reads for a number written with a fraction or
    an exponent, of exact value [q]. *)
Definition of_Q (q : Q) : float := true_divide (Qnum q) (Qden q).

(** [a / 2^k] rounded to an integer, ties to even. *)
Definition half_even (a : Z) (k : positive) : Z :=
  let d := Z.pow_pos 2 k in
  let q := a / d in
  let r := a mod d in
  match Z.compare (2 * r) d with
  | Lt => q
  | Gt => q + 1
  | Eq => if Z.even q then q else q + 1
  end.

(** [round(x, 2)]: the exact value of [x] is rounded to two decimals,
    ties to even, and the float nearest to that decimal is returned;
    infinities and NaN are returned as they are. *)
Definition round2 (x : float) : float :=
  match x with
  | S754_finite s m e =>
      let n := match e with
               | Zneg k => half_even (100 * Zpos m) k
               | _ => 100 * Zpos m * 2 ^ e
               end in
      match n with
      | Zpos p => div_pos s p 100
      | _ => S754_zero s
      end
  | _ => x
  end.

(** [n <= x] for an [int] and a float: Python compares the exact values. *)
Definition int_leb (n : Z) (x : float) : bool :=
  match x with
  | S754_zero _ => n <=? 0
  | S754_infinity s => negb s
  | S754_nan => false
  | S754_finite s m e =>
      let v := if s then Zneg m else Zpos m in
      match e with
      | Zneg k => n * Z.pow_pos 2 k <=? v
      | _ => n <=? v * 2 ^ e
      end
  end.

Definition is_finite (x : float) : bool :=
  match x with
  | S754_zero _ | S754_finite _ _ _ => true
  | _ => false
  end.

End PyFloat.

(** [sorted(l, key=...)]: a stable sort, here by insertion from the right.
    [ltb a b] is [key a < key b]. *)
Section Sorted.
Context {A : Type} (ltb : A -> A -> bool).

Fixpoint sorted_insert (x : A) (l : list A) : list A :=
  match l with
  | [] => [x]
  | y :: l' => if ltb y x then y :: sorted_insert x l' else x :: l
  end.

Definition sorted (l : list A) : list A := foldr sorted_insert [] l.

End Sorted.

(* ===================================================================== *)
(** ** ISO-8601 text of a naive datetime                                  *)
(* ===================================================================== *)

Module Iso.
Import PyTime.

Definition digit_char (d : Z) : ascii := ascii_of_nat (48 + Z.to_nat d).

Definition digit_val (c : ascii) : option Z :=
  let n := Z.of_nat (nat_of_ascii c) in
  if (48 <=? n) && (n <=? 57) then Some (n - 48) else None.

(** [w] decimal digits of [n], zero padded, in front of [rest]:
    the ["%0wd"] conversions of [isoformat]. *)
Fixpoint zfill (w : nat) (n : Z) (rest : string) : string :=
  match w with
  | O => rest
  | S w' => zfill w' (n / 10) (String (digit_char (n mod 10)) rest)
  end.

(** [datetime.isoformat()] with the default separator ['T'];
    the fraction is written only when it is not zero. *)
Definition isoformat (dt : datetime) : string :=
  zfill 4 (year dt) (String "-" (zfill 2 (month dt) (String "-" (zfill 2 (day dt)
  (String "T" (zfill 2 (hour dt) (String ":" (zfill 2 (minute dt) (String ":"
  (zfill 2 (second dt)
     (if microsecond dt =? 0 then EmptyString
      else String "." (zfill 6 (microsecond dt) EmptyString)))))))))))).

(** Reads exactly [w] decimal digits. *)
Fixpoint parse_digits (w : nat) (s : string) (acc : Z) : option (Z * string) :=
  match w with
  | O => Some (acc, s)
  | S w' =>
      match s with
      | String c s' =>
          match digit_val c with
          | Some d => parse_digits w' s' (acc * 10 + d)
          | None => None
          end
      | EmptyString => None
      end
  end.

Definition expect (c : ascii) (s : string) : option string :=
  match s with
  | String c' s' => if Ascii.eqb c c' then Some s' else None
  | EmptyString => None
  end.

Definition is_empty (s : string) : bool :=
  match s with EmptyString => true | String _ _ => false end.

(** The fraction after ['.']: three or six digits up to the end. *)
Definition parse_fraction (s : string) : option Z :=
  match parse_digits 6 s 0 with
  | Some (us, EmptyString) => Some us
  | _ =>
      match parse_digits 3 s 0 with
      | Some (ms, EmptyString) => Some (ms * 1000)
      | _ => None
      end
  end.

(** [HH[:MM[:SS[.fff[fff]]]]] *)
Definition parse_time (s : string) : option (Z * Z * Z * Z) :=
  '(hh, s) ← parse_digits 2 s 0;
  if is_empty s then Some (hh, 0, 0, 0) else
  s ← expect ":" s;
  '(mm, s) ← parse_digits 2 s 0;
  if is_empty s then Some (hh, mm, 0, 0) else
  s ← expect ":" s;
  '(ss, s) ← parse_digits 2 s 0;
  if is_empty s then Some (hh, mm, ss, 0) else
  s ← expect "." s;
  us ← parse_fraction s;
  Some (hh, mm, ss, us).

(** [datetime.fromisoformat(text)] for text without a UTC offset: the
    date is [text[0:10]], the time [text[11:]] (the character between
    them is not looked at), and the constructor rejects fields out of
    range. [None] is [ValueError]. *)
Definition fromisoformat (text : string) : option datetime :=
  '(y, s) ← parse_digits 4 text 0;
  s ← expect "-" s;
  '(m, s) ← parse_digits 2 s 0;
  s ← expect "-" s;
  '(d, s) ← parse_digits 2 s 0;
  let tstr := match s with EmptyString => EmptyString | String _ t => t end in
  '(hh, mm, ss, us) ←
     (if is_empty tstr then Some (0, 0, 0, 0) else parse_time tstr);
  let dt := mkdatetime y m d hh mm ss us in
  if valid_datetime dt then Some dt else None.

End Iso.


(* ===================================================================== *)
(** ** Operations on JSON values                                          *)
(* ===================================================================== *)

(** [bool(v)] *)
Definition truthy (v : json) : bool :=
  match v with
  | JNull => false
  | JBool b => b
  | JInt n => negb (n =? 0)
  | JFloat q => negb (Qeq_bool q 0)
  | JStr s => negb (Iso.is_empty s)
  | JArr items => match items with [] => false | _ :: _ => true end
  | JObj fields => negb (Nat.eqb (size fields) 0)
  end.

(** [key in v] for a string [key]; [None] is [TypeError]. *)
Definition py_in (key : string) (v : json) : option bool :=
  match v with
  | JObj fields => Some (bool_decide (is_Some (fields !! key)))
  | JArr items =>
      Some (existsb (fun x => match x with JStr s => String.eqb s key | _ => false end) items)
  | JStr s => Some (match String.index 0 key s with Some _ => true | None => false end)
  | _ => None
  end.

(** [v[key] = x]; only a dict takes a string key. *)
Definition py_setitem (key : string) (x : json) (v : json) : option json :=
  match v with
  | JObj fields => Some (JObj (<[key := x]> fields))
  | _ => None
  end.

(** [v.get(key, dflt)]; [None] is [AttributeError]. *)
Definition py_get (key : string) (dflt : json) (v : json) : option json :=
  match v with
  | JObj fields => Some (default dflt (fields !! key))
  | _ => None
  end.

(** The number a value stands for in arithmetic and comparisons with a
    float; [None] is [TypeError]. *)
Definition py_number (v : json) : option Q :=
  match v with
  | JInt n => Some (inject_Z n)
  | JFloat q => Some q
  | JBool b => Some (if b then 1%Q else 0%Q)
  | _ => None
  end.

(* ===================================================================== *)
(** ** [TimeSession]                                                      *)
(* ===================================================================== *)

Import PyTime.

Record TimeSession := mkTimeSession {
  id : string;
  start_time : datetime;
  end_time : option datetime;
  project : string;
  task : string;
  duration_seconds : Z;
  is_active : bool;
  session_type : string;
  note : string }.

(** [TimeSession.to_dict] *)
Definition to_dict (s : TimeSession) : gmap string json :=
  <["id" := JStr (id s)]>
  (<["start_time" := JStr (Iso.isoformat (start_time s))]>
  (<["end_time" := match end_time s with
                   | Some e => JStr (Iso.isoformat e)
                   | None => JNull
                   end]>
  (<["project" := JStr (project s)]>
  (<["task" := JStr (task s)]>
  (<["duration_seconds" := JInt (duration_seconds s)]>
  (<["is_active" := JBool (is_active s)]>
  (<["session_type" := JStr (session_type s)]>
  (<["note" := JStr (note s)]> ∅)))))))).

Definition as_str (v : json) : option string :=
  match v with JStr s => Some s | _ => None end.
Definition as_int (v : json) : option Z :=
  match v with JInt n => Some n | _ => None end.
Definition as_bool (v : json) : option bool :=
  match v with JBool b => Some b | _ => None end.

(** [data[key]]; [None] is [KeyError]. *)
Definition item (key : string) (data : gmap string json) : option json :=
  data !! key.

(** [datetime.fromisoformat(e) if e else None] *)
Definition end_time_of (e : json) : option (option datetime) :=
  if truthy e
  then match as_str e ≫= Iso.fromisoformat with
       | Some dt => Some (Some dt)
       | None => None
       end
  else Some None.

(** [TimeSession.from_dict]. [data[k]] of an absent key raises
    [KeyError]; a value that is not of the annotated type of its field has
    no [TimeSession] of this record type; both are [None]. *)
Definition from_dict (data : gmap string json) : option TimeSession :=
  i ← item "id" data ≫= as_str;
  st ← item "start_time" data ≫= as_str;
  st ← Iso.fromisoformat st;
  e ← item "end_time" data;
  en ← end_time_of e;
  p ← item "project" data ≫= as_str;
  t ← item "task" data ≫= as_str;
  d ← item "duration_seconds" data ≫= as_int;
  a ← item "is_active" data ≫= as_bool;
  ty ← item "session_type" data ≫= as_str;
  n ← as_str (default (JStr EmptyString) (item "note" data));
  Some (mkTimeSession i st en p t d a ty n).

(* ===================================================================== *)
(** ** [JsonDatabase]: the session store                                  *)
(* ===================================================================== *)

(** The keys of [projects_data] the store reads and writes; [None] is an
    absent key. *)
Record ProjectsData := mkProjectsData {
  active_project : option string;
  active_task : option string;
  recent_combinations : option (list string) }.

(** [config_data['projects_data']] is the very object [projects_data]
    once loaded or saved: the model keeps that object once, in
    [projects_data], and [config_data] is the rest of the document. *)
Record JsonDatabase := mkJsonDatabase {
  sessions : list TimeSession;
  projects_data : ProjectsData;
  config_data : json }.

(** [l.remove(x)] where [x in l]: drops the first occurrence. *)
Fixpoint list_remove_first (x : string) (l : list string) : list string :=
  match l with
  | [] => []
  | y :: l' => if String.eqb x y then l' else y :: list_remove_first x l'
  end.

Definition combination_of (project task : string) : string :=
  project +:+ " - " +:+ task.

Definition recent_updated (combination : string) (recent : list string) : list string :=
  let recent := if bool_decide (combination ∈ recent)
                then list_remove_first combination recent else recent in
  take 10 (combination :: recent).

Definition update_recent_combination (project task : string) (db : JsonDatabase)
  : JsonDatabase :=
  let pd := projects_data db in
  let recent := default [] (recent_combinations pd) in
  mkJsonDatabase (sessions db)
    (mkProjectsData (active_project pd) (active_task pd)
       (Some (recent_updated (combination_of project task) recent)))
    (config_data db).

(** [create_session]; returns the store and the new session. *)
Definition create_session (uuid : string) (now : datetime)
    (project task session_type : string) (db : JsonDatabase)
  : JsonDatabase * TimeSession :=
  let session := mkTimeSession uuid now None project task 0 true session_type EmptyString in
  let db := mkJsonDatabase (sessions db ++ [session]) (projects_data db) (config_data db) in
  (update_recent_combination project task db, session).

(** Position and value of the first active session. *)
Definition find_active (l : list TimeSession) : option (nat * TimeSession) :=
  list_find (fun s => is_active s = true) l.

Definition get_active_session (db : JsonDatabase) : option TimeSession :=
  snd <$> find_active (sessions db).

Definition stopped (now : datetime) (active : TimeSession) : TimeSession :=
  mkTimeSession (id active) (start_time active) (Some now) (project active)
    (task active) (int_total_seconds (sub now (start_time active))) false
    (session_type active) (note active).

(** [stop_active_session]: the session object found is changed in place. *)
Definition stop_active_session (now : datetime) (db : JsonDatabase)
  : JsonDatabase * option TimeSession :=
  match find_active (sessions db) with
  | Some (i, active) =>
      let active' := stopped now active in
      (mkJsonDatabase (<[i := active']> (sessions db)) (projects_data db) (config_data db),
       Some active')
  | None => (db, None)
  end.

Definition start_ltb (a b : TimeSession) : bool :=
  datetime_ltb (start_time a) (start_time b).

Definition get_today_sessions (today : date) (session_type_filter : option string)
    (db : JsonDatabase) : list TimeSession :=
  sorted start_ltb
    (List.filter
       (fun s => date_eqb (date_of (start_time s)) today
                 && match session_type_filter with
                    | None => true
                    | Some ty => String.eqb (session_type s) ty
                    end)
       (sessions db)).

(** The seconds one session adds to a total of today. *)
Definition counted_seconds (now : datetime) (s : TimeSession) : Z :=
  match end_time s with
  | Some _ => duration_seconds s
  | None => if is_active s then int_total_seconds (sub now (start_time s)) else 0
  end.

Definition get_today_work_seconds (now : datetime) (db : JsonDatabase) : Z :=
  fold_left (fun total s => total + counted_seconds now s)
    (get_today_sessions (date_of now) (Some "work"%string) db) 0.

Definition is_break (s : TimeSession) : bool :=
  String.eqb (session_type s) "break" || String.eqb (project s) "BREAK".

Definition get_today_break_seconds (now : datetime) (db : JsonDatabase) : Z :=
  fold_left
    (fun total s =>
       if date_eqb (date_of (start_time s)) (date_of now) && is_break s
       then total + counted_seconds now s else total)
    (sessions db) 0.

(** [add_session]; [session_id] is the text ["session_<milliseconds>"]
    made from the clock. Nothing in the body raises. *)
Definition add_session (session_id : string) (start : datetime)
    (end_ : option datetime) (project task session_type note : string)
    (db : JsonDatabase) : JsonDatabase * option TimeSession :=
  let '(duration, active) :=
    match end_ with
    | Some e => (int_total_seconds (sub e start), false)
    | None => (0, true)
    end in
  let new_session :=
    mkTimeSession session_id start end_ project task duration active session_type note in
  (mkJsonDatabase (sessions db ++ [new_session]) (projects_data db) (config_data db),
   Some new_session).

(** [remove_session] *)
Definition remove_session (session_id : string) (db : JsonDatabase)
  : JsonDatabase * bool :=
  match list_find (fun s => id s = session_id) (sessions db) with
  | Some (i, _) =>
      (mkJsonDatabase (delete i (sessions db)) (projects_data db) (config_data db), true)
  | None => (db, false)
  end.

Definition set_active_project_task (project task : string) (db : JsonDatabase)
  : JsonDatabase :=
  let pd := projects_data db in
  update_recent_combination project task
    (mkJsonDatabase (sessions db)
       (mkProjectsData (Some project) (Some task) (recent_combinations pd))
       (config_data db)).


(* ===================================================================== *)
(** ** The configuration file and its two loaders                         *)
(* ===================================================================== *)

(** The configuration file as a loader sees it: a text is told apart only
    by what reading and [json.loads] make of it. *)
Inductive file :=
| Absent                  (* [os.path.exists] is [False] *)
| Unreadable              (* [open] or [read] raises *)
| Blank                   (* empty or white space only *)
| Malformed               (* [json.loads] raises [JSONDecodeError] *)
| Document (doc : json).  (* [json.loads] returns [doc] *)

Record disk := mkdisk { config_file : file; config_writable : bool }.

(** [with open(config_file, 'w') as f: json.dump(doc, f, ...)];
    [None] is the exception of a failed write. *)
Definition write_config (doc : json) (d : disk) : option disk :=
  if config_writable d then Some (mkdisk (Document doc) true) else None.

Definition obj (l : list (string * json)) : json := JObj (list_to_map l).

Module ConfigManager.

Definition default_config : json :=
  obj [("work_hours", obj [("monday", JFloat 8); ("tuesday", JFloat 8);
                          ("wednesday", JFloat 8); ("thursday", JFloat 8);
                          ("friday", JFloat 8); ("saturday", JFloat 0);
                          ("sunday", JFloat 0)]);
       ("break_times", obj [("min_break_after_hours", JFloat 6);
                           ("min_break_duration_minutes", JInt 30)]);
       ("excel_file", JStr "working_hours.xlsx");
       ("note_dialog", JBool true);
       ("overlay", obj [("enabled", JBool true); ("width", JInt 200);
                       ("height", JInt 120); ("font_size", JInt 12);
                       ("transparency", JFloat (9 # 10));
                       ("background_color", JStr "#2c3e50");
                       ("text_color", JStr "#ecf0f1")]);
       ("projects", obj [("active_project", JStr "General");
                        ("project_list",
                         JArr [JStr "General"; JStr "Project A - Web Development";
                               JStr "Project B - Data Analysis";
                               JStr "Project C - Design"; JStr "Administration";
                               JStr "Meetings"; JStr "Training"])])].

(** [_create_default_config]: sets [self.config], then [save_config],
    which re-raises a failed write. *)
Definition _create_default_config (d : disk) : option (json * disk) :=
  d' ← write_config default_config d; Some (default_config, d').

(** [_validate_config]: [Some tt] when both required keys are found. *)
Definition _validate_config (config : json) : option unit :=
  fold_left
    (fun acc key =>
       match acc with
       | Some tt => match py_in key config with Some true => Some tt | _ => None end
       | None => None
       end)
    ["work_hours"; "excel_file"]%string (Some tt).

(** [load_config]: the configuration held afterwards and the disk;
    [None] when an exception leaves the loader. *)
Definition load_config (d : disk) : option (json * disk) :=
  let attempt :=                       (* the [try] block *)
    match config_file d with
    | Absent => _create_default_config d
    | Unreadable | Blank | Malformed => None
    | Document doc =>
        match _validate_config doc with
        | Some tt => Some (doc, d)
        | None => None
        end
    end in
  match attempt with
  | Some r => Some r
  | None => _create_default_config d   (* either [except] clause *)
  end.

End ConfigManager.

Module JsonDatabaseConfig.

Definition default_config : json :=
  obj [("overlay_settings",
        obj [("position", obj [("x", JInt 100); ("y", JInt 100)]);
             ("transparency", JFloat (9 # 10)); ("font_size", JInt 11);
             ("always_on_top", JBool true); ("show_seconds", JBool false)]);
       ("work_settings",
        obj [("target_hours_per_day", JFloat 8);
             ("auto_break_after_minutes", JInt 60);
             ("break_reminder_enabled", JBool true)]);
       ("excel_export",
        obj [("filename", JStr "working_hours.xlsx");
             ("auto_export_daily", JBool true)]);
       ("auto_split_minutes", JInt 5)].

(** [save_config]: a failed write is caught and reported, the file stays. *)
Definition save_config (config_data : json) (d : disk) : disk :=
  match write_config config_data d with
  | Some d' => d'
  | None => d
  end.

(** [JsonDatabase.load_config]: [config_data] afterwards and the disk. *)
Definition load_config (d : disk) : json * disk :=
  let attempt : option (json * disk) :=        (* the [try] block *)
    match config_file d with
    | Absent => Some (default_config, save_config default_config d)
    | Unreadable | Blank | Malformed => None
    | Document doc =>
        match py_in "auto_split_minutes" doc with
        | Some true => Some (doc, d)
        | Some false =>
            doc' ← py_setitem "auto_split_minutes" (JInt 5) doc; Some (doc', d)
        | None => None
        end
    end in
  match attempt with
  | Some r => r
  | None => (default_config, d)                (* the [except] clause *)
  end.

End JsonDatabaseConfig.

(* ===================================================================== *)
(** ** [ExcelReportManager._evaluation_sheet]                             *)
(* ===================================================================== *)

Inductive status := NoWork | TargetReached | BelowTarget.

(** The text written in the column [Status], without its leading symbol. *)
Definition status_text (st : status) : string :=
  match st with
  | NoWork => "No work"
  | TargetReached => "Target reached"
  | BelowTarget => "Below target"
  end.

(** One row of the sheet; the hour cells hold the floats
    [round(., 2)] returns. The texts made by [strftime] are kept as the
    values they are made from. *)
Record eval_row := mkeval_row {
  Datum : date;
  Weekday : Z;
  Tag_Startzeit : datetime;
  Tag_Endzeit : datetime;
  Arbeitszeit : PyFloat.float;
  Pausenzeit : PyFloat.float;
  Gesamtzeit : PyFloat.float;
  Sollzeit : json;
  Differenz : PyFloat.float;
  Status : status }.

Definition weekdays : list string :=
  ["monday"; "tuesday"; "wednesday"; "thursday"; "friday"; "saturday"; "sunday"]%string.

Definition is_closed (s : TimeSession) : bool :=
  match end_time s with Some _ => true | None => false end.

(** [by_date[key].append(s)], the dict keeping the order of first use.
    The key [strftime('%d.%m.%Y')] is the date, written day first. *)
Fixpoint by_date_append (key : date) (s : TimeSession)
    (groups : list (date * list TimeSession)) : list (date * list TimeSession) :=
  match groups with
  | [] => [(key, [s])]
  | (k, l) :: groups' =>
      if date_eqb k key then (k, l ++ [s]) :: groups'
      else (k, l) :: by_date_append key s groups'
  end.

Definition by_date_of (sessions : list TimeSession) : list (date * list TimeSession) :=
  fold_left
    (fun groups s =>
       if is_closed s then by_date_append (date_of (start_time s)) s groups else groups)
    sessions [].

(** Order of the keys as texts [dd.mm.yyyy]: day, then month, then year,
    for years of four digits, the only ones [day_row] goes on with. *)
Definition date_str_ltb (a b : date) : bool :=
  lex_ltb [d_day a; d_month a; d_year a] [d_day b; d_month b; d_year b].

(** [(x.end_time - x.start_time).total_seconds()]: the microseconds of
    the span divided by [10**6]; [None] is the [TypeError] of a session
    without end time. *)
Definition span_seconds (x : TimeSession) : option PyFloat.float :=
  e ← end_time x;
  Some (PyFloat.true_divide (sub e (start_time x)) 1000000).

(** [sum(... for x in l)]: the spans are added to [0] one after the
    other, in floats. *)
Definition sum_seconds (l : list TimeSession) : option PyFloat.float :=
  fold_left
    (fun acc x => total ← acc; span ← span_seconds x; Some (PyFloat.add total span))
    l (Some PyFloat.zero).

Definition day_work (day_sessions : list TimeSession) : list TimeSession :=
  List.filter (fun x => negb (String.eqb (session_type x) "break")
                        && negb (String.eqb (project x) "BREAK")) day_sessions.

Definition day_breaks (day_sessions : list TimeSession) : list TimeSession :=
  List.filter is_break day_sessions.

(** [sum(...) / 3600] *)
Definition hours_of (l : list TimeSession) : option PyFloat.float :=
  total ← sum_seconds l;
  Some (PyFloat.div total (PyFloat.of_Z 3600)).

(** [work_h] *)
Definition work_hours (day_sessions : list TimeSession) : option PyFloat.float :=
  hours_of (day_work day_sessions).

(** [break_h] *)
Definition break_hours (day_sessions : list TimeSession) : option PyFloat.float :=
  hours_of (day_breaks day_sessions).

(** [config_data.get('work_hours', {}).get(weekday_name, 8.0)] *)
Definition target_of (config_data : json) (weekday_name : string) : option json :=
  work_hours_config ← py_get "work_hours" (JObj ∅) config_data;
  py_get weekday_name (JFloat 8) work_hours_config.

(** A number as Python holds it: an [int] (a [bool] is one) or a float. *)
Inductive pynum :=
| PInt (n : Z)
| PFloat (f : PyFloat.float).

(** The number a configured target is; [None] for a value that is not a
    number. A number written with a fraction or an exponent is the float
    nearest to it. *)
Definition target_number (v : json) : option pynum :=
  match v with
  | JInt n => Some (PInt n)
  | JBool b => Some (PInt (if b then 1 else 0))
  | JFloat q => Some (PFloat (PyFloat.of_Q q))
  | _ => None
  end.

(** [work_h - target]; an [int] is converted to a float first, which
    raises [OverflowError] when it is too large. *)
Definition minus_target (work_h : PyFloat.float) (target : pynum)
  : option PyFloat.float :=
  match target with
  | PFloat f => Some (PyFloat.sub work_h f)
  | PInt n =>
      let f := PyFloat.of_Z n in
      if PyFloat.is_finite f then Some (PyFloat.sub work_h f) else None
  end.

(** [work_h >= target] *)
Definition reaches (work_h : PyFloat.float) (target : pynum) : bool :=
  match target with
  | PFloat f => PyFloat.leb f work_h
  | PInt n => PyFloat.int_leb n work_h
  end.

(** [work_h == 0] *)
Definition is_zero (work_h : PyFloat.float) : bool := PyFloat.eqb work_h PyFloat.zero.

Definition classify (work_h : PyFloat.float) (target : pynum) : status :=
  if is_zero work_h then NoWork
  else if reaches work_h target then TargetReached
  else BelowTarget.

(** [datetime.strptime(date_str, '%d.%m.%Y').date()] of a key: the date
    again, when the year was written with four digits. With the C library
    of Linux [strftime('%Y')] writes a year below 1000 with fewer digits,
    which [strptime] refuses ([None]); that case is the one taken here. *)
Definition strptime_key (key : date) : option date :=
  if d_year key <? 1000 then None else Some key.

(** The body of the loop over the dates; [None] when it raises. *)
Definition day_row (config_data : json) (key : date) (day_sessions : list TimeSession)
  : option eval_row :=
  work_h ← work_hours day_sessions;
  break_h ← break_hours day_sessions;
  let all_sorted := sorted start_ltb day_sessions in
  first ← head all_sorted;
  final ← last all_sorted;
  final_end ← end_time final;
  date_obj ← strptime_key key;
  weekday_name ← weekdays !! Z.to_nat (weekday date_obj);
  target ← target_of config_data weekday_name;
  t ← target_number target;
  diff ← minus_target work_h t;
  Some (mkeval_row key (weekday date_obj) (start_time first) final_end
          (PyFloat.round2 work_h) (PyFloat.round2 break_h)
          (PyFloat.round2 (PyFloat.add work_h break_h)) target
          (PyFloat.round2 diff) (classify work_h t)).

(** [by_date[key]] *)
Fixpoint lookup_group (key : date) (groups : list (date * list TimeSession))
  : list TimeSession :=
  match groups with
  | [] => []
  | (k, l) :: groups' => if date_eqb k key then l else lookup_group key groups'
  end.

Definition _evaluation_sheet (sessions : list TimeSession) (json_db : JsonDatabase)
  : option (list eval_row) :=
  let by_date := by_date_of sessions in
  mapM (fun key => day_row (config_data json_db) key (lookup_group key by_date))
       (sorted date_str_ltb (map fst by_date)).

(* ===================================================================== *)
(** ** [BeautifulCleanOverlay.quick_switch_project]                       *)
(* ===================================================================== *)

Record Overlay := mkOverlay {
  json_db : JsonDatabase;
  current_project : string;
  current_task : string;
  is_running : bool }.

(** [active_session.project = project; active_session.task = task] *)
Definition retagged (project task : string) (s : TimeSession) : TimeSession :=
  mkTimeSession (id s) (start_time s) (end_time s) project task
    (duration_seconds s) (is_active s) (session_type s) (note s).

(** [elapsed_minutes >= auto_split_minutes] for the active session. *)
Definition should_split (now : datetime) (threshold : Q) (active : TimeSession) : bool :=
  let elapsed_seconds := int_total_seconds (sub now (start_time active)) in
  Qle_bool threshold (inject_Z elapsed_seconds / 60)%Q.

(** [quick_switch_project]. The three clock readings are those of the
    elapsed-time test, of [stop_active_session] and of [create_session].
    An exception is caught by the handler of the method; it can only come
    from reading the threshold, before anything is changed. Widgets and
    the writes of the two files are left out. *)
Definition quick_switch_project (now_check now_stop now_start : datetime)
    (uuid : string) (project task : string) (o : Overlay) : Overlay :=
  let db := json_db o in
  let active_session := find_active (sessions db) in
  match py_get "auto_split_minutes" (JInt 5) (config_data db) with
  | None => o
  | Some auto_split_minutes =>
      let decision : option bool :=
        match active_session with
        | Some (_, active) =>
            threshold ← py_number auto_split_minutes;
            Some (should_split now_check threshold active)
        | None => Some false
        end in
      match decision with
      | None => o
      | Some true =>
          let db1 := fst (stop_active_session now_stop db) in
          let session_type := if String.eqb project "BREAK" then "break" else "work" in
          let db2 := fst (create_session uuid now_start project task session_type db1) in
          mkOverlay (set_active_project_task project task db2) project task true
      | Some false =>
          let db1 :=
            match active_session with
            | Some (i, active) =>
                mkJsonDatabase (<[i := retagged project task active]> (sessions db))
                  (projects_data db) (config_data db)
            | None => db
            end in
          mkOverlay (set_active_project_task project task db1) project task (is_running o)
      end
  end.


(* ===================================================================== *)
(** ** Vocabulary of the statements                                       *)
(* ===================================================================== *)

(** Number of sessions that are active. *)
Definition active_count (l : list TimeSession) : nat :=
  length (List.filter is_active l).

(** The invariant of the data model: no end time exactly while active. *)
Definition end_time_iff_active (s : TimeSession) : Prop :=
  end_time s = None <-> is_active s = true.

(** The closed sessions that started on a date: the group of that date. *)
Definition closed_on (d : date) (sessions : list TimeSession) : list TimeSession :=
  List.filter (fun s => is_closed s && date_eqb (date_of (start_time s)) d) sessions.

(** The status rule as the specification words it, for the rows of a
    sheet; the work hours of a row are those of the closed sessions that
    started on its date. *)
Definition status_as_specified (sessions : list TimeSession) (db : JsonDatabase) : Prop :=
  forall rows row work_h target,
    _evaluation_sheet sessions db = Some rows -> row ∈ rows ->
    work_hours (closed_on (Datum row) sessions) = Some work_h ->
    target_number (Sollzeit row) = Some target ->
    (Status row = TargetReached <-> reaches work_h target = true)
    /\ (Status row = NoWork <-> is_zero work_h = true).

(** A Saturday with one break and no work, under the default targets of
    [ConfigManager] (0.0 hours on Saturday). *)
Definition saturday_break : TimeSession :=
  mkTimeSession "b1" (mkdatetime 2024 3 9 9 0 0 0) (Some (mkdatetime 2024 3 9 9 10 0 0))
    "BREAK" "Pause" 600 false "break" EmptyString.

Definition saturday_db : JsonDatabase :=
  mkJsonDatabase [saturday_break] (mkProjectsData None None None)
    ConfigManager.default_config.

Definition saturday_sheet : option (list eval_row) :=
  Eval vm_compute in _evaluation_sheet (sessions saturday_db) saturday_db.

(** A Monday with three work sessions of 9600.3, 9600.4 and 9599.3
    seconds, eight hours together, under the default targets of
    [ConfigManager] (8.0 hours on Monday). *)
Definition monday_sessions : list TimeSession :=
  [mkTimeSession "w1" (mkdatetime 2024 3 11 8 0 0 0)
     (Some (mkdatetime 2024 3 11 10 40 0 300000))
     "General" "Daily Work" 9600 false "work" EmptyString;
   mkTimeSession "w2" (mkdatetime 2024 3 11 11 0 0 0)
     (Some (mkdatetime 2024 3 11 13 40 0 400000))
     "General" "Daily Work" 9600 false "work" EmptyString;
   mkTimeSession "w3" (mkdatetime 2024 3 11 14 0 0 0)
     (Some (mkdatetime 2024 3 11 16 39 59 300000))
     "General" "Daily Work" 9599 false "work" EmptyString].

Definition monday_db : JsonDatabase :=
  mkJsonDatabase monday_sessions (mkProjectsData None None None)
    ConfigManager.default_config.

Definition monday_sheet : option (list eval_row) :=
  Eval vm_compute in _evaluation_sheet (sessions monday_db) monday_db.

(** The states of the file in which the specification has a loader fall
    back on the defaults: missing, unreadable, blank, malformed, or a
    document without one of the required keys. *)
Definition calls_for_defaults (f : file) : Prop :=
  f = Absent \/ f = Unreadable \/ f = Blank \/ f = Malformed
  \/ exists m, f = Document (JObj m)
               /\ (m !! "work_hours" = None \/ m !! "excel_file" = None).

(** The load-or-default rule as the specification words it, for the loader
    of the session store, on a file that can be written. *)
Definition store_loader_as_specified (d : disk) : Prop :=
  config_writable d = true -> calls_for_defaults (config_file d) ->
  JsonDatabaseConfig.load_config d
  = (JsonDatabaseConfig.default_config,
     mkdisk (Document JsonDatabaseConfig.default_config) true).

(** A day at the overlay: work is started at 09:00, the project is
    switched to ['BREAK'] two minutes later (below the threshold, so the
    running session is only given the new project), and the session is
    stopped at 09:10. *)
Definition nine : datetime := mkdatetime 2024 3 11 9 0 0 0.
Definition two_past_nine : datetime := mkdatetime 2024 3 11 9 2 0 0.
Definition ten_past_nine : datetime := mkdatetime 2024 3 11 9 10 0 0.
Definition noon : datetime := mkdatetime 2024 3 11 12 0 0 0.

Definition empty_db : JsonDatabase :=
  mkJsonDatabase [] (mkProjectsData None None None) (JObj ∅).

Definition started_db : JsonDatabase :=
  fst (create_session "u1" nine "General" "Daily Work" "work" empty_db).

Definition switched_db : JsonDatabase :=
  json_db (quick_switch_project two_past_nine two_past_nine two_past_nine "u2"
             "BREAK" "Pause" (mkOverlay started_db "General" "Daily Work" true)).

Definition stopped_db : JsonDatabase :=
  fst (stop_active_session ten_past_nine switched_db).

(** Sum of the recorded durations. *)
Definition total_duration (l : list TimeSession) : Z :=
  fold_left (fun total s => total + duration_seconds s) l 0.

(** Sum of [f] over a list. *)
Definition sum_with (f : TimeSession -> Z) (l : list TimeSession) : Z :=
  foldr (fun s acc => f s + acc) 0 l.

(* ===================================================================== *)
(** ** The sessions file                                                  *)
(* ===================================================================== *)

(** [TimeSession.from_dict(s)] for an element [s] of the loaded list:
    subscripting anything but a dict with ['id'] raises. *)
Definition session_record (item : json) : option TimeSession :=
  match item with
  | JObj data => from_dict data
  | _ => None
  end.

(** [save_sessions]: the file afterwards and the value returned. The file
    holds what [json.load] will return. *)
Definition save_sessions (sessions : list TimeSession) (writable : bool) (f : file)
  : file * bool :=
  if writable
  then (Document (JArr (map (fun s => JObj (to_dict s)) sessions)), true)
  else (f, false).

(** [load_sessions]: [self.sessions] afterwards. Any exception leaves the
    empty list; iterating a document that is not a list either raises or
    yields nothing. *)
Definition load_sessions (f : file) : list TimeSession :=
  match f with
  | Document (JArr items) =>
      match mapM session_record items with
      | Some l => l
      | None => []
      end
  | _ => []
  end.

(* ===================================================================== *)
(** ** Further operations of the session store                            *)
(* ===================================================================== *)

(** [update_session] *)
Definition update_session (session : TimeSession) (db : JsonDatabase)
  : JsonDatabase * bool :=
  match list_find (fun s => id s = id session) (sessions db) with
  | Some (i, _) =>
      (mkJsonDatabase (<[i := session]> (sessions db)) (projects_data db)
         (config_data db), true)
  | None => (db, false)
  end.

(** [date.fromordinal(n)] for an ordinal in range, as the standard
    library computes it: 400, 100, 4 and 1 year cycles, then the month
    from an estimate that is at most one too high. *)
Definition ord2ymd (n : Z) : date :=
  let n := n - 1 in
  let n400 := n / 146097 in let n := n mod 146097 in
  let n100 := n / 36524 in let n := n mod 36524 in
  let n4 := n / 1461 in let n := n mod 1461 in
  let n1 := n / 365 in let n := n mod 365 in
  let y := n400 * 400 + 1 + n100 * 100 + n4 * 4 + n1 in
  if (n1 =? 4) || (n100 =? 4) then mkdate (y - 1) 12 31
  else
    let leapyear := (n1 =? 3) && (negb (n4 =? 24) || (n100 =? 3)) in
    let m := Z.shiftr (n + 50) 5 in
    let preceding :=
      nth (Z.to_nat m) [0; 0; 31; 59; 90; 120; 151; 181; 212; 243; 273; 304; 334] 0
      + (if (2 <? m) && leapyear then 1 else 0) in
    if n <? preceding
    then
      let m' := m - 1 in
      let preceding' :=
        preceding
        - (nth (Z.to_nat m') [0; 31; 28; 31; 30; 31; 30; 31; 31; 30; 31; 30; 31] 0
           + (if (m' =? 2) && leapyear then 1 else 0)) in
      mkdate y m' (n - preceding' + 1)
    else mkdate y m (n - preceding + 1).

(** [dt - timedelta(days=days)]; [None] is [OverflowError]. *)
Definition minus_days (dt : datetime) (days : Z) : option datetime :=
  let o := toordinal dt - days in
  if (1 <=? o) && (o <=? 3652059)
  then let d := ord2ymd o in
       Some (mkdatetime (d_year d) (d_month d) (d_day d)
               (hour dt) (minute dt) (second dt) (microsecond dt))
  else None.

(** [cleanup_old_data]; [None] when computing the cutoff raises. *)
Definition cleanup_old_data (now : datetime) (days_to_keep : Z) (db : JsonDatabase)
  : option (JsonDatabase * bool) :=
  cutoff_date ← minus_days now days_to_keep;
  let original_count := Z.of_nat (length (sessions db)) in
  let kept :=
    List.filter (fun s => negb (datetime_ltb (start_time s) cutoff_date)) (sessions db) in
  let removed_count := original_count - Z.of_nat (length kept) in
  Some (mkJsonDatabase kept (projects_data db) (config_data db), 0 <? removed_count).

(** [get_active_project_task] *)
Definition get_active_project_task (db : JsonDatabase) : string * string :=
  (default "General"%string (active_project (projects_data db)),
   default "Daily Work"%string (active_task (projects_data db))).

(** [get_recent_combinations] *)
Definition get_recent_combinations (db : JsonDatabase) : list string :=
  default [] (recent_combinations (projects_data db)).

(* ===================================================================== *)
(** ** The overlay: play, pause and closing                               *)
(* ===================================================================== *)

(** [start_session]; the clock readings are those of
    [stop_active_session] and of [create_session]. Widgets and the write
    of the sessions file are left out, as in [quick_switch_project]. *)
Definition start_session (now_stop now_start : datetime) (uuid : string) (o : Overlay)
  : Overlay :=
  let db1 := fst (stop_active_session now_stop (json_db o)) in
  let session_type :=
    if String.eqb (current_project o) "BREAK" then "break"%string else "work"%string in
  let db2 :=
    fst (create_session uuid now_start (current_project o) (current_task o)
           session_type db1) in
  mkOverlay db2 (current_project o) (current_task o) true.

(** [pause_session] *)
Definition pause_session (now : datetime) (o : Overlay) : Overlay :=
  match stop_active_session now (json_db o) with
  | (db1, Some _) => mkOverlay db1 (current_project o) (current_task o) false
  | (_, None) => o
  end.

(** [toggle_play_pause] *)
Definition toggle_play_pause (now_stop now_start : datetime) (uuid : string)
    (o : Overlay) : Overlay :=
  match get_active_session (json_db o) with
  | None => start_session now_stop now_start uuid o
  | Some _ => pause_session now_stop o
  end.

(** [v[key]] for a string [key]; [None] is [KeyError] or [TypeError]. *)
Definition py_getitem (key : string) (v : json) : option json :=
  match v with
  | JObj fields => fields !! key
  | _ => None
  end.

(** The first lines of [on_closing]:
    [config['overlay_settings']['position'] = {'x': x, 'y': y}], after
    creating [config['overlay_settings']] when it is absent. *)
Definition store_position (x y : Z) (config : json) : option json :=
  present ← py_in "overlay_settings" config;
  config1 ← (if present : bool then Some config
             else py_setitem "overlay_settings" (JObj ∅) config);
  settings ← py_getitem "overlay_settings" config1;
  settings' ← py_setitem "position" (obj [("x"%string, JInt x); ("y"%string, JInt y)])
                 settings;
  py_setitem "overlay_settings" settings' config1.

(** [on_closing], up to the export: an exception while the position is
    stored is caught by the handler of the method, and the rest of the
    body, the stop of the active session included, is not run. *)
Definition on_closing (x y : Z) (now : datetime) (o : Overlay) : Overlay :=
  let db := json_db o in
  match store_position x y (config_data db) with
  | None => o
  | Some config' =>
      let db1 := mkJsonDatabase (sessions db) (projects_data db) config' in
      let db2 :=
        match get_active_session db1 with
        | Some _ => fst (stop_active_session now db1)
        | None => db1
        end in
      mkOverlay db2 (current_project o) (current_task o) (is_running o)
  end.

(** What the user does at the overlay, with the clock readings and the
    identifier each action draws. *)
Inductive ui_action :=
| PlayPause (now_stop now_start : datetime) (uuid : string)
| QuickSwitch (now_check now_stop now_start : datetime) (uuid : string)
    (new_project new_task : string).

Definition ui_step (o : Overlay) (a : ui_action) : Overlay :=
  match a with
  | PlayPause now_stop now_start uuid => toggle_play_pause now_stop now_start uuid o
  | QuickSwitch now_check now_stop now_start uuid new_project new_task =>
      quick_switch_project now_check now_stop now_start uuid new_project new_task o
  end.

Definition ui_run (actions : list ui_action) (o : Overlay) : Overlay :=
  fold_left ui_step actions o.

(* ===================================================================== *)
(** ** [ConfigManager.get] and [ConfigManager.set]                        *)
(* ===================================================================== *)

Module ConfigPath.

(** [key.split(sep)] for a separator of one character. *)
Fixpoint split (sep : ascii) (key : string) : list string :=
  match key with
  | EmptyString => [EmptyString]
  | String a key' =>
      if Ascii.eqb a sep then EmptyString :: split sep key'
      else match split sep key' with
           | [] => [String a EmptyString]
           | w :: ws => String a w :: ws
           end
  end.

(** The loop of [get] over the keys. *)
Fixpoint get_keys (keys : list string) (dflt value : json) : json :=
  match keys with
  | [] => value
  | k :: keys' =>
      match value with
      | JObj fields =>
          match fields !! k with
          | Some v => get_keys keys' dflt v
          | None => dflt
          end
      | _ => dflt
      end
  end.

(** [ConfigManager.get(key, default)] *)
Definition get (key : string) (dflt : json) (config : json) : json :=
  get_keys (split "." key) dflt config.

(** The loop of [set] over [keys[:-1]] and the final assignment; the
    nested dicts are changed in place, so the result is the configuration
    as it stands afterwards, and the flag is [false] when an exception
    ended the call. *)
Fixpoint set_keys (keys : list string) (value : json) (config : json) : json * bool :=
  match keys with
  | [] => (config, false)
  | [k] =>
      match py_setitem k value config with
      | Some config' => (config', true)
      | None => (config, false)
      end
  | k :: keys' =>
      match py_in k config with
      | None => (config, false)
      | Some present =>
          match (if present : bool then Some config
                 else py_setitem k (JObj ∅) config) with
          | None => (config, false)
          | Some config1 =>
              match py_getitem k config1 with
              | None => (config1, false)
              | Some child =>
                  let '(child', ok) := set_keys keys' value child in
                  (match py_setitem k child' config1 with
                   | Some config2 => config2
                   | None => config1
                   end, ok)
              end
          end
      end
  end.

(** [ConfigManager.set(key, value)] *)
Definition set (key : string) (value : json) (config : json) : json * bool :=
  set_keys (split "." key) value config.

End ConfigPath.

(* ===================================================================== *)
(** ** Vocabulary of the further statements                               *)
(* ===================================================================== *)

(** The datetimes of a session are ones Python can hold. *)
Definition valid_session (s : TimeSession) : Prop :=
  valid_datetime (start_time s) = true
  /\ forall e, end_time s = Some e -> valid_datetime e = true.

(** The keys [from_dict] subscripts; ['note'] alone is read with [get]. *)
Definition required_keys : list string :=
  ["id"; "start_time"; "end_time"; "project"; "task"; "duration_seconds";
   "is_active"; "session_type"]%string.

(** [s.start_time >= cutoff] *)
Definition starts_at_or_after (cutoff : datetime) (s : TimeSession) : bool :=
  negb (datetime_ltb (start_time s) cutoff).

(** Of today, and of the type asked for when there is one. *)
Definition today_of_type (today : date) (ty : option string) (s : TimeSession) : bool :=
  date_eqb (date_of (start_time s)) today
  && match ty with
     | None => true
     | Some ty => String.eqb (session_type s) ty
     end.

#[global] Instance date_eq_dec : EqDecision date.
Proof. solve_decision. Defined.

(** A closed session that started on the date. *)
Definition has_closed_session (sessions : list TimeSession) (d : date) : Prop :=
  exists s, s ∈ sessions /\ is_closed s = true /\ date_of (start_time s) = d.

(** A target [work_h - target] can be taken with: a float, a bool, or an
    [int] that [float] can hold. *)
Definition number_in_float_range (v : json) : bool :=
  match v with
  | JFloat _ | JBool _ => true
  | JInt n => PyFloat.is_finite (PyFloat.of_Z n)
  | _ => false
  end.

(** A Monday with 450 seconds of work and 450 seconds of break. *)
Definition eighths_db : JsonDatabase :=
  mkJsonDatabase
    [mkTimeSession "w1" (mkdatetime 2024 3 11 9 0 0 0)
       (Some (mkdatetime 2024 3 11 9 7 30 0))
       "General" "Daily Work" 450 false "work" EmptyString;
     mkTimeSession "b1" (mkdatetime 2024 3 11 9 7 30 0)
       (Some (mkdatetime 2024 3 11 9 15 0 0))
       "BREAK" "Pause" 450 false "break" EmptyString]
    (mkProjectsData None None None) (JObj ∅).

Definition eighths_sheet : option (list eval_row) :=
  Eval vm_compute in _evaluation_sheet (sessions eighths_db) eighths_db.

(** A store whose configuration has a text as Saturday's target. *)
Definition text_target_db : JsonDatabase :=
  mkJsonDatabase [saturday_break] (mkProjectsData None None None)
    (obj [("work_hours"%string, obj [("saturday"%string, JStr "eight")])]).

(** An overlay on an empty store, and one whose configuration is not a
    dict. *)
Definition idle_overlay : Overlay := mkOverlay empty_db "General" "Daily Work" false.

Definition running_overlay : Overlay := mkOverlay started_db "General" "Daily Work" true.

Definition no_dict_overlay : Overlay :=
  mkOverlay (mkJsonDatabase (sessions started_db) (projects_data started_db) JNull)
    "General" "Daily Work" true.

(* ===================================================================== *)
(** * Proofs                                                              *)
(* ===================================================================== *)

(** ** ISO-8601 text: reading back what was written                       *)

Module IsoFacts.
Import PyTime Iso.

Lemma digit_val_char d : 0 <= d < 10 -> digit_val (digit_char d) = Some d.
Proof.
  intros H.
  assert (d = 0 \/ d = 1 \/ d = 2 \/ d = 3 \/ d = 4 \/ d = 5 \/ d = 6
          \/ d = 7 \/ d = 8 \/ d = 9) as Hd by lia.
  repeat (destruct Hd as [-> | Hd]; [reflexivity |]). subst d. reflexivity.
Qed.

Lemma parse_digits_split w1 w2 s acc :
  parse_digits (w1 + w2) s acc =
  match parse_digits w1 s acc with
  | Some (a, s') => parse_digits w2 s' a
  | None => None
  end.
Proof.
  revert s acc. induction w1 as [| w1 IH]; intros s acc; simpl; [reflexivity |].
  destruct s as [| c s]; [reflexivity |].
  destruct (digit_val c); [apply IH | reflexivity].
Qed.

Lemma parse_zfill w n rest acc :
  0 <= n ->
  parse_digits w (zfill w n rest) acc = Some (acc * 10 ^ Z.of_nat w + n mod 10 ^ Z.of_nat w, rest).
Proof.
  revert n rest acc. induction w as [| w IH]; intros n rest acc Hn.
  - simpl. rewrite Z.mod_1_r. do 2 f_equal. lia.
  - cbn [zfill]. replace (S w) with (w + 1)%nat by lia.
    rewrite parse_digits_split, IH by (apply Z.div_pos; lia).
    cbn [parse_digits]. rewrite digit_val_char by (apply Z.mod_pos_bound; lia).
    do 2 f_equal.
    rewrite Nat2Z.inj_add, Z.pow_add_r by lia. change (10 ^ Z.of_nat 1) with 10.
    set (p := 10 ^ Z.of_nat w). assert (0 < p) by (apply Z.pow_pos_nonneg; lia).
    rewrite (Z.mul_comm p 10), Z.rem_mul_r by lia.
    lia.
Qed.

Lemma zfill_nonempty w n rest :
  is_empty rest = false -> is_empty (zfill w n rest) = false.
Proof.
  revert n rest. induction w as [| w IH]; intros n rest H; [exact H |].
  cbn [zfill]. apply IH. reflexivity.
Qed.

Lemma valid_datetime_bounds dt :
  valid_datetime dt = true ->
  (1 <= year dt <= 9999) /\ (1 <= month dt <= 12) /\
  (1 <= day dt <= days_in_month (year dt) (month dt)) /\
  (0 <= hour dt <= 23) /\ (0 <= minute dt <= 59) /\ (0 <= second dt <= 59) /\
  (0 <= microsecond dt <= 999999).
Proof.
  unfold valid_datetime. rewrite !andb_true_iff, !Z.leb_le. tauto.
Qed.

Lemma days_in_month_le y m : days_in_month y m <= 31.
Proof.
  unfold days_in_month. destruct (_ && _); [lia |].
  destruct (Z.to_nat m) as [| [| [| [| [| [| [| [| [| [| [| [| [| k]]]]]]]]]]]]];
    cbn; try lia. destruct k; cbn; lia.
Qed.

Lemma fromisoformat_isoformat dt :
  valid_datetime dt = true -> fromisoformat (isoformat dt) = Some dt.
Proof.
  intros Hv. pose proof (valid_datetime_bounds dt Hv) as (Hy & Hm & Hd & Hh & Hmi & Hs & Hu).
  pose proof (days_in_month_le (year dt) (month dt)) as Hdm.
  unfold fromisoformat, isoformat.
  rewrite parse_zfill by lia. cbn [mbind option_bind expect Ascii.eqb Bool.eqb].
  rewrite parse_zfill by lia. cbn [mbind option_bind expect Ascii.eqb Bool.eqb].
  rewrite parse_zfill by lia. cbn [mbind option_bind expect Ascii.eqb Bool.eqb].
  rewrite zfill_nonempty by reflexivity.
  unfold parse_time.
  rewrite parse_zfill by lia. cbn [mbind option_bind expect Ascii.eqb Bool.eqb is_empty].
  rewrite parse_zfill by lia. cbn [mbind option_bind expect Ascii.eqb Bool.eqb is_empty].
  rewrite parse_zfill by lia.
  change (10 ^ Z.of_nat 4) with 10000. change (10 ^ Z.of_nat 2) with 100.
  rewrite !Z.mul_0_l, !Z.add_0_l.
  rewrite !Z.mod_small by lia.
  destruct (microsecond dt =? 0) eqn:Hus.
  - apply Z.eqb_eq in Hus. cbn [mbind option_bind is_empty].
    destruct dt; cbn in *. subst. rewrite Hv. reflexivity.
  - cbn [mbind option_bind expect Ascii.eqb Bool.eqb is_empty].
    unfold parse_fraction. rewrite parse_zfill by lia.
    change (10 ^ Z.of_nat 6) with 1000000.
    rewrite Z.mul_0_l, Z.add_0_l, Z.mod_small by lia.
    cbn [mbind option_bind].
    destruct dt; cbn in *. rewrite Hv. reflexivity.
Qed.

End IsoFacts.

(* ===================================================================== *)
(** ** The session store                                                  *)
(* ===================================================================== *)

Lemma active_count_app l1 l2 :
  active_count (l1 ++ l2) = (active_count l1 + active_count l2)%nat.
Proof. unfold active_count. by rewrite List.filter_app, length_app. Qed.

Lemma active_count_pos l s :
  s ∈ l -> is_active s = true -> (1 <= active_count l)%nat.
Proof.
  intros Hin Ha. apply list_elem_of_split in Hin as (l1 & l2 & ->).
  rewrite active_count_app. unfold active_count at 2. cbn. rewrite Ha. cbn. lia.
Qed.

Lemma find_active_Some l i a :
  find_active l = Some (i, a) <->
  l !! i = Some a /\ is_active a = true
  /\ forall j b, l !! j = Some b -> (j < i)%nat -> is_active b = false.
Proof.
  unfold find_active. rewrite list_find_Some.
  split; intros (H1 & H2 & H3); repeat split; try done; intros j b Hj Hlt.
  - specialize (H3 j b Hj Hlt). by destruct (is_active b).
  - rewrite (H3 j b Hj Hlt). done.
Qed.

Lemma find_active_None l :
  find_active l = None <-> Forall (fun s => is_active s = false) l.
Proof.
  unfold find_active. rewrite list_find_None.
  split; intros H; eapply Forall_impl; try exact H; intros s; cbn;
    by destruct (is_active s).
Qed.

(** C3. With an active session already in the store, [create_session]
    appends a new session that is active and has no end time, leaves the
    sessions already there as they are, and so the store holds at least
    two active sessions: it does not enforce exclusivity. *)
Theorem create_session_second_active uuid now project task ty db s :
  s ∈ sessions db -> is_active s = true ->
  let r := create_session uuid now project task ty db in
  sessions (fst r) = sessions db ++ [snd r]
  /\ is_active (snd r) = true /\ end_time (snd r) = None
  /\ s ∈ sessions (fst r)
  /\ (2 <= active_count (sessions (fst r)))%nat.
Proof.
  intros Hin Ha. cbn -[active_count]. repeat split; try done.
  - apply elem_of_app. by left.
  - rewrite active_count_app. pose proof (active_count_pos _ _ Hin Ha).
    unfold active_count at 2. cbn. lia.
Qed.

(** C4. The sessions that [create_session], [stop_active_session] and
    [add_session] make or change have no end time exactly when they are
    active: a created session is active without end time; a stopped one is
    inactive, ends at the time of the call and sits in the store; an added
    one is inactive with the end time given, or active without one. *)
Theorem store_operations_end_time_iff_active :
  (forall uuid now project task ty db,
     let s := snd (create_session uuid now project task ty db) in
     is_active s = true /\ end_time s = None /\ end_time_iff_active s)
  /\ (forall now db,
        match snd (stop_active_session now db) with
        | Some s => is_active s = false /\ end_time s = Some now
                    /\ end_time_iff_active s
                    /\ s ∈ sessions (fst (stop_active_session now db))
        | None => find_active (sessions db) = None
        end)
  /\ (forall sid start end_ project task ty note db,
        match snd (add_session sid start end_ project task ty note db) with
        | Some s =>
            match end_ with
            | Some e => is_active s = false /\ end_time s = Some e
            | None => is_active s = true /\ end_time s = None
            end
            /\ end_time_iff_active s
            /\ s ∈ sessions (fst (add_session sid start end_ project task ty note db))
        | None => False
        end).
Proof.
  unfold end_time_iff_active. split; [| split].
  - intros. cbn. done.
  - intros now db. unfold stop_active_session.
    destruct (find_active (sessions db)) as [[i a] |] eqn:Hf; cbn; [| done].
    apply find_active_Some in Hf as (Hi & _ & _).
    repeat split; try done.
    apply list_elem_of_lookup. exists i. apply list_lookup_insert_eq.
    by eapply lookup_lt_Some.
  - intros. destruct end_ as [e |]; cbn; repeat split; try done;
      apply elem_of_app; right; apply list_elem_of_singleton; done.
Qed.

(** The whole number of seconds of a span that is not negative. *)
Lemma int_total_seconds_floor td :
  0 <= td ->
  (inject_Z (int_total_seconds td) <= total_seconds td)%Q
  /\ (total_seconds td < inject_Z (int_total_seconds td + 1))%Q.
Proof.
  intros H. unfold int_total_seconds, total_seconds.
  rewrite Z.quot_div_nonneg by lia.
  pose proof (Z.div_mod td 1000000 ltac:(lia)) as Hdm.
  pose proof (Z.mod_pos_bound td 1000000 ltac:(lia)) as Hb.
  set (q := td / 1000000) in *. set (r := td mod 1000000) in *.
  unfold Qle, Qlt, Qdiv, Qmult, Qinv, inject_Z. cbn. lia.
Qed.

(** C5. Without an active session [stop_active_session] returns nothing
    and leaves the store as it is. With one, the first active session gets
    the time of the call as end time, the whole seconds between start and
    end as duration, is no longer active, is returned, and every other
    session stays as it was. *)
Theorem stop_active_session_spec now db :
  (Forall (fun s => is_active s = false) (sessions db) ->
   stop_active_session now db = (db, None))
  /\ (forall s, s ∈ sessions db -> is_active s = true ->
      exists i a a',
        sessions db !! i = Some a /\ is_active a = true
        /\ (forall j b, sessions db !! j = Some b -> (j < i)%nat -> is_active b = false)
        /\ snd (stop_active_session now db) = Some a'
        /\ end_time a' = Some now
        /\ duration_seconds a' = Z.quot (sub now (start_time a)) 1000000
        /\ is_active a' = false
        /\ id a' = id a /\ start_time a' = start_time a /\ project a' = project a
        /\ task a' = task a /\ session_type a' = session_type a /\ note a' = note a
        /\ sessions (fst (stop_active_session now db)) !! i = Some a'
        /\ length (sessions (fst (stop_active_session now db))) = length (sessions db)
        /\ (forall j, j <> i ->
              sessions (fst (stop_active_session now db)) !! j = sessions db !! j)
        /\ projects_data (fst (stop_active_session now db)) = projects_data db
        /\ config_data (fst (stop_active_session now db)) = config_data db).
Proof.
  split.
  - intros Hall. apply find_active_None in Hall.
    unfold stop_active_session. by rewrite Hall.
  - intros s Hin Ha.
    destruct (find_active (sessions db)) as [[i a] |] eqn:Hf.
    + pose proof Hf as (Hi & Hact & Hfirst)%find_active_Some.
      exists i, a, (stopped now a). unfold stop_active_session. rewrite Hf. cbn.
      repeat split; try done.
      * apply list_lookup_insert_eq. by eapply lookup_lt_Some.
      * apply length_insert.
      * intros j Hj. by apply list_lookup_insert_ne.
    + apply find_active_None in Hf. rewrite Forall_forall in Hf.
      specialize (Hf s Hin). congruence.
Qed.

(** C10. [remove_session] of an identifier no session has returns
    [False] and leaves the store as it is; otherwise it drops the first
    session with that identifier, keeps the others in order, and returns
    [True]. *)
Theorem remove_session_spec session_id db :
  (Forall (fun s => id s <> session_id) (sessions db) ->
   remove_session session_id db = (db, false))
  /\ (forall s, s ∈ sessions db -> id s = session_id ->
      exists l1 x l2,
        sessions db = l1 ++ x :: l2 /\ id x = session_id
        /\ Forall (fun y => id y <> session_id) l1
        /\ remove_session session_id db
           = (mkJsonDatabase (l1 ++ l2) (projects_data db) (config_data db), true)).
Proof.
  unfold remove_session. split.
  - intros Hall.
    assert (list_find (fun s => id s = session_id) (sessions db) = None) as Hf
      by (by apply list_find_None).
    by rewrite Hf.
  - intros s Hin Hid.
    destruct (list_find (fun s => id s = session_id) (sessions db))
      as [[i x] |] eqn:Hf.
    + apply list_find_Some in Hf as (Hi & Hx & Hfirst).
      exists (take i (sessions db)), x, (drop (S i) (sessions db)).
      repeat split.
      * by rewrite take_drop_middle.
      * done.
      * apply Forall_forall. intros y (j & Hj)%list_elem_of_lookup.
        apply lookup_take_Some in Hj as (Hj & Hlt). by eapply Hfirst.
      * by rewrite delete_take_drop.
    + apply list_find_None in Hf. rewrite Forall_forall in Hf.
      by specialize (Hf s Hin).
Qed.

(* ===================================================================== *)
(** ** Recent combinations                                                *)
(* ===================================================================== *)

Lemma list_remove_first_sublist x l : list_remove_first x l `sublist_of` l.
Proof.
  induction l as [| y l IH]; cbn; [done |].
  destruct (String.eqb x y); [by apply sublist_cons | by apply sublist_skip].
Qed.

Lemma list_remove_first_not_in x l : NoDup l -> x ∉ list_remove_first x l.
Proof.
  induction 1 as [| y l Hy Hnd IH]; cbn; [apply not_elem_of_nil |].
  destruct (String.eqb_spec x y) as [-> | Hne]; [done |].
  rewrite elem_of_cons. intros [? | ?]; [done | by apply IH].
Qed.

(** C7. [update_recent_combination] leaves a list that starts with
    ["{project} - {task}"], has at most ten entries, keeps the other
    entries in the order they had, and has no duplicate when the list
    before had none. *)
Theorem update_recent_combination_spec project task db :
  let recent := default [] (recent_combinations (projects_data db)) in
  let combination := (project +:+ " - " +:+ task)%string in
  exists rest,
    recent_combinations (projects_data (update_recent_combination project task db))
    = Some (combination :: rest)
    /\ (length (combination :: rest) <= 10)%nat
    /\ rest `sublist_of` recent
    /\ (NoDup recent -> NoDup (combination :: rest))
    /\ sessions (update_recent_combination project task db) = sessions db.
Proof.
  cbn zeta. unfold update_recent_combination, recent_updated, combination_of. cbn.
  set (c := (project +:+ " - " +:+ task)%string).
  set (recent := default [] (recent_combinations (projects_data db))).
  set (r := if bool_decide (c ∈ recent) then list_remove_first c recent else recent).
  assert (Hsub : r `sublist_of` recent).
  { subst r. case_bool_decide; [apply list_remove_first_sublist | done]. }
  exists (take 9 r). repeat split.
  - cbn. rewrite length_take. lia.
  - etrans; [apply sublist_take | done].
  - intros Hnd. apply NoDup_cons. split.
    + intros Hin. apply elem_of_take in Hin as (i & Hin & _).
      apply list_elem_of_lookup_2 in Hin. subst r. case_bool_decide.
      * by apply (list_remove_first_not_in c recent).
      * done.
    + eapply sublist_NoDup; [exact Hnd |]. etrans; [apply sublist_take | done].
Qed.

(* ===================================================================== *)
(** ** Serialisation of a session                                         *)
(* ===================================================================== *)

Lemma isoformat_nonempty dt : Iso.is_empty (Iso.isoformat dt) = false.
Proof. unfold Iso.isoformat. by apply IsoFacts.zfill_nonempty. Qed.

Lemma end_time_of_isoformat e :
  valid_datetime e = true ->
  end_time_of (JStr (Iso.isoformat e)) = Some (Some e).
Proof.
  intros Hv. unfold end_time_of. cbn [truthy].
  rewrite isoformat_nonempty. cbn [negb as_str mbind option_bind].
  by rewrite IsoFacts.fromisoformat_isoformat.
Qed.

(** C8. Writing a session with [to_dict] and reading it back with
    [from_dict] gives the same session, field for field: the timestamps
    come back from their ISO-8601 text, and no end time comes back as
    none. The datetimes are those Python can hold (fields in range). *)
Theorem from_dict_to_dict s :
  valid_datetime (start_time s) = true ->
  (forall e, end_time s = Some e -> valid_datetime e = true) ->
  from_dict (to_dict s) = Some s.
Proof.
  intros Hs He. unfold from_dict, to_dict, item.
  repeat (rewrite ?lookup_insert_eq; rewrite ?lookup_insert_ne by done).
  cbn [mbind option_bind as_str as_int as_bool default].
  rewrite IsoFacts.fromisoformat_isoformat by done. cbn [mbind option_bind].
  destruct s as [i st [e |] p t d a ty n];
    cbn [id start_time end_time project task duration_seconds is_active
         session_type note] in *.
  - rewrite end_time_of_isoformat by (by apply He). done.
  - done.
Qed.

(* ===================================================================== *)
(** ** Quick project switch                                               *)
(* ===================================================================== *)

Lemma sessions_set_active_project_task project task db :
  sessions (set_active_project_task project task db) = sessions db.
Proof. reflexivity. Qed.

(** For a threshold of whole minutes and a clock that has not gone back,
    the test on whole seconds is the test on the exact elapsed time. *)
Lemma should_split_whole_minutes now n a :
  0 <= sub now (start_time a) ->
  should_split now (inject_Z n) a = true <-> n * 60000000 <= sub now (start_time a).
Proof.
  intros Hpos. unfold should_split, int_total_seconds.
  rewrite Qle_bool_iff, Z.quot_div_nonneg by lia.
  set (td := sub now (start_time a)) in *.
  pose proof (Z.div_mod td 1000000 ltac:(lia)) as Hdm.
  pose proof (Z.mod_pos_bound td 1000000 ltac:(lia)) as Hb.
  set (q := td / 1000000) in *. set (r := td mod 1000000) in *.
  unfold Qle, Qdiv, Qmult, Qinv, inject_Z. cbn. lia.
Qed.


(* ===================================================================== *)
(** ** Daily evaluation sheet                                             *)
(* ===================================================================== *)

Lemma date_eqb_eq a b : date_eqb a b = true <-> a = b.
Proof.
  unfold date_eqb. rewrite !andb_true_iff, !Z.eqb_eq.
  destruct a, b; cbn. split; [intros [[-> ->] ->]; done | intros [= -> -> ->]; done].
Qed.

Lemma lookup_group_append k key s groups :
  lookup_group k (by_date_append key s groups)
  = if date_eqb key k then lookup_group k groups ++ [s] else lookup_group k groups.
Proof.
  induction groups as [| [k0 l0] groups IH]; cbn; [done |].
  destruct (date_eqb k0 key) eqn:E0; cbn.
  - apply date_eqb_eq in E0 as ->.
    by destruct (date_eqb key k).
  - rewrite IH. destruct (date_eqb k0 k) eqn:E1; [| done].
    destruct (date_eqb key k) eqn:E2; [| done].
    apply date_eqb_eq in E1 as ->. apply date_eqb_eq in E2 as ->.
    assert (date_eqb k k = true) by (by apply date_eqb_eq). congruence.
Qed.

Lemma lookup_group_fold k l acc :
  lookup_group k
    (fold_left
       (fun groups s =>
          if is_closed s then by_date_append (date_of (start_time s)) s groups
          else groups) l acc)
  = lookup_group k acc ++ closed_on k l.
Proof.
  revert acc. induction l as [| s l IH]; intros acc; cbn.
  - by rewrite app_nil_r.
  - rewrite IH. destruct (is_closed s); cbn; [| done].
    rewrite lookup_group_append.
    destruct (date_eqb (date_of (start_time s)) k); [| done].
    by rewrite <- app_assoc.
Qed.

(** The group of a date holds the closed sessions of that date, in the
    order of the store. *)
Lemma lookup_group_by_date_of k sessions :
  lookup_group k (by_date_of sessions) = closed_on k sessions.
Proof. unfold by_date_of. by rewrite lookup_group_fold. Qed.

Lemma classify_NoWork w t : classify w t = NoWork <-> is_zero w = true.
Proof.
  unfold classify. destruct (is_zero w); [done |].
  destruct (reaches w t); split; done.
Qed.

Lemma classify_TargetReached w t :
  classify w t = TargetReached <-> is_zero w = false /\ reaches w t = true.
Proof.
  unfold classify. destruct (is_zero w).
  - split; [done | by intros [? _]].
  - destruct (reaches w t); split; try done. by intros [_ ?].
Qed.

Lemma classify_BelowTarget w t :
  classify w t = BelowTarget <-> is_zero w = false /\ reaches w t = false.
Proof.
  unfold classify. destruct (is_zero w).
  - split; [done | by intros [? _]].
  - destruct (reaches w t); split; try done. by intros [_ ?].
Qed.

(** [work_h == 0] holds of the two zeros, and of no other float. *)
Lemma is_zero_spec w : is_zero w = true <-> exists s, w = SpecFloat.S754_zero s.
Proof.
  unfold is_zero, PyFloat.eqb, SpecFloat.SFeqb, PyFloat.zero.
  destruct w as [s | s | | s m e]; cbn.
  - split; [eauto | done].
  - split; [by destruct s | by intros [? ?]].
  - split; [done | by intros [? ?]].
  - split; [by destruct s | by intros [? ?]].
Qed.

Lemma strptime_key_Some key d : strptime_key key = Some d -> d = key /\ 1000 <= d_year key.
Proof.
  unfold strptime_key. destruct (d_year key <? 1000) eqn:E; [done |].
  intros [= <-]. split; [done | lia].
Qed.

Lemma day_row_Some config key l row :
  day_row config key l = Some row ->
  Datum row = key
  /\ exists work_h name target,
       work_hours l = Some work_h
       /\ Arbeitszeit row = PyFloat.round2 work_h
       /\ weekdays !! Z.to_nat (weekday key) = Some name
       /\ target_of config name = Some (Sollzeit row)
       /\ target_number (Sollzeit row) = Some target
       /\ Status row = classify work_h target.
Proof.
  unfold day_row. intros H.
  destruct (work_hours l) as [work_h |]; [| done]. cbn [mbind option_bind] in H.
  destruct (break_hours l) as [break_h |]; [| done]. cbn [mbind option_bind] in H.
  destruct (head _) as [first |]; [| done]. cbn [mbind option_bind] in H.
  destruct (last _) as [final |]; [| done]. cbn [mbind option_bind] in H.
  destruct (end_time final) as [final_end |]; [| done]. cbn [mbind option_bind] in H.
  destruct (strptime_key key) as [date_obj |] eqn:Hk; [| done].
  cbn [mbind option_bind] in H. apply strptime_key_Some in Hk as [-> _].
  destruct (weekdays !! _) as [name |] eqn:Hname; [| done]. cbn [mbind option_bind] in H.
  destruct (target_of config name) as [target |] eqn:Ht; [| done].
  cbn [mbind option_bind] in H.
  destruct (target_number target) as [t |] eqn:Hn; [| done]. cbn [mbind option_bind] in H.
  destruct (minus_target work_h t) as [diff |]; [| done]. cbn [mbind option_bind] in H.
  injection H as <-. cbn. split; [done |]. exists work_h, name, t. done.
Qed.

Lemma target_of_Some config name v :
  target_of config name = Some v ->
  exists cfg wh,
    config = JObj cfg /\ default (JObj ∅) (cfg !! "work_hours") = JObj wh
    /\ v = default (JFloat 8) (wh !! name).
Proof.
  unfold target_of. destruct config as [| | | | | | cfg]; try done. cbn.
  destruct (default (JObj ∅) (cfg !! "work_hours")) as [| | | | | | wh] eqn:E;
    try done.
  cbn. intros [= <-]. eauto.
Qed.

(** C2, as the code has it. In every row of the daily evaluation sheet
    the target is the value configured for the weekday of the date of the
    row (8.0 when there is none), and the status is decided on [work_h],
    the float the code computes for the closed work sessions that started
    on that date: their spans in seconds added one after the other, then
    divided by 3600. The status is "no work" exactly when [work_h == 0],
    "target reached" exactly when [work_h] is not 0 and
    [work_h >= target], and "below target" exactly when [work_h] is not 0
    and [work_h >= target] is false. The hours shown in the row are
    [round(work_h, 2)], which can reach the target when [work_h] does
    not. *)
Theorem evaluation_sheet_status sessions db rows row :
  _evaluation_sheet sessions db = Some rows -> row ∈ rows ->
  exists name cfg wh target work_h,
    weekdays !! Z.to_nat (weekday (Datum row)) = Some name
    /\ config_data db = JObj cfg
    /\ default (JObj ∅) (cfg !! "work_hours") = JObj wh
    /\ Sollzeit row = default (JFloat 8) (wh !! name)
    /\ target_number (Sollzeit row) = Some target
    /\ work_hours (closed_on (Datum row) sessions) = Some work_h
    /\ Arbeitszeit row = PyFloat.round2 work_h
    /\ (Status row = NoWork <-> is_zero work_h = true)
    /\ (Status row = TargetReached <->
        is_zero work_h = false /\ reaches work_h target = true)
    /\ (Status row = BelowTarget <->
        is_zero work_h = false /\ reaches work_h target = false).
Proof.
  unfold _evaluation_sheet. intros Hsheet Hrow.
  apply mapM_Some_1 in Hsheet.
  apply list_elem_of_lookup in Hrow as [i Hi].
  destruct (Forall2_lookup_r _ _ _ _ _ Hsheet Hi) as (key & _ & Hday).
  rewrite lookup_group_by_date_of in Hday.
  apply day_row_Some in Hday
    as (Hkey & work_h & name & target & Hwork & Hcell & Hname & Htar & Hnum & Hst).
  apply target_of_Some in Htar as (cfg & wh & Hcfg & Hwh & Hv).
  subst key. exists name, cfg, wh, target, work_h.
  rewrite Hst.
  split; [done |]. split; [done |]. split; [done |]. split; [done |].
  split; [done |]. split; [done |]. split; [done |].
  split; [apply classify_NoWork |].
  split; [apply classify_TargetReached | apply classify_BelowTarget].
Qed.

Lemma saturday_sheet_eq :
  _evaluation_sheet (sessions saturday_db) saturday_db = saturday_sheet.
Proof. vm_compute. reflexivity. Qed.

(** On that Saturday the work hours (0.0) reach the target (0.0), and the
    status is "no work", not "target reached". *)
Lemma status_as_specified_fails : ~ status_as_specified (sessions saturday_db) saturday_db.
Proof.
  intros H. pose proof saturday_sheet_eq as E. unfold saturday_sheet in E.
  destruct (H _ _ PyFloat.zero (PFloat PyFloat.zero) E
              ltac:(apply list_elem_of_here) eq_refl eq_refl) as [Hreached _].
  cbn in Hreached. destruct Hreached as [_ Hreached].
  discriminate Hreached. reflexivity.
Qed.

(* ===================================================================== *)
(** ** Loading the configuration                                          *)
(* ===================================================================== *)

Lemma validate_config_missing m :
  m !! "work_hours" = None \/ m !! "excel_file" = None ->
  ConfigManager._validate_config (JObj m) = None.
Proof.
  unfold ConfigManager._validate_config. cbn.
  intros [H | H]; rewrite H.
  - rewrite bool_decide_eq_false_2 by (by intros [? ?]). done.
  - rewrite (bool_decide_eq_false_2 (is_Some None)) by (by intros [? ?]).
    by destruct (bool_decide _).
Qed.

(** C9, as the code has it. [ConfigManager.load_config], on a file that
    can be written: when the file is missing, unreadable, blank,
    malformed, or a document without ['work_hours'] or ['excel_file'], the
    default document is the configuration held and is written to the
    file. [JsonDatabase.load_config] has no required key: on a missing
    file it holds its default document and writes it; on an unreadable,
    blank or malformed file it holds the default document; a document
    that is a dict is kept, with [auto_split_minutes = 5] added in memory
    when absent, and the file is left as it is. *)
Theorem load_config_defaults d :
  (config_writable d = true -> calls_for_defaults (config_file d) ->
   ConfigManager.load_config d
   = Some (ConfigManager.default_config,
           mkdisk (Document ConfigManager.default_config) true))
  /\ (config_writable d = true -> config_file d = Absent ->
      JsonDatabaseConfig.load_config d
      = (JsonDatabaseConfig.default_config,
         mkdisk (Document JsonDatabaseConfig.default_config) true))
  /\ (config_file d = Unreadable \/ config_file d = Blank \/ config_file d = Malformed ->
      fst (JsonDatabaseConfig.load_config d) = JsonDatabaseConfig.default_config)
  /\ (forall m, config_file d = Document (JObj m) ->
      JsonDatabaseConfig.load_config d
      = (JObj (match m !! "auto_split_minutes" with
               | Some _ => m
               | None => <["auto_split_minutes" := JInt 5]> m
               end), d)).
Proof.
  split; [| split; [| split]].
  - intros Hw Hf. unfold ConfigManager.load_config, ConfigManager._create_default_config,
      write_config. rewrite Hw.
    destruct Hf as [-> | [-> | [-> | [-> | (m & -> & Hm)]]]]; try done.
    by rewrite (validate_config_missing m Hm).
  - intros Hw Hf. unfold JsonDatabaseConfig.load_config, JsonDatabaseConfig.save_config,
      write_config. by rewrite Hf, Hw.
  - unfold JsonDatabaseConfig.load_config. by intros [-> | [-> | ->]].
  - intros m Hf. unfold JsonDatabaseConfig.load_config. rewrite Hf. cbn.
    destruct (m !! "auto_split_minutes") as [v |] eqn:E.
    + rewrite bool_decide_eq_true_2 by eauto. done.
    + rewrite bool_decide_eq_false_2 by (by intros [? ?]). done.
Qed.

(** A document without the required keys: the loader of the session store
    keeps it, and writes nothing. *)
Lemma store_loader_as_specified_fails :
  ~ store_loader_as_specified (mkdisk (Document (JObj ∅)) true).
Proof.
  intros H. unfold store_loader_as_specified in H.
  specialize (H eq_refl).
  assert (calls_for_defaults (config_file (mkdisk (Document (JObj ∅)) true))) as Hc.
  { do 4 right. exists ∅. split; [done | by left]. }
  specialize (H Hc). apply (f_equal fst) in H.
  vm_compute in H. discriminate H.
Qed.

(* ===================================================================== *)
(** ** Totals of today                                                    *)
(* ===================================================================== *)

Lemma sorted_insert_Permutation {A} (ltb : A -> A -> bool) x l :
  sorted_insert ltb x l ≡ₚ x :: l.
Proof.
  induction l as [| y l IH]; cbn; [done |].
  destruct (ltb y x); [| done]. rewrite IH. apply Permutation_swap.
Qed.

Lemma sorted_Permutation {A} (ltb : A -> A -> bool) l : sorted ltb l ≡ₚ l.
Proof.
  induction l as [| x l IH]; cbn; [done |].
  rewrite sorted_insert_Permutation. by rewrite IH.
Qed.

Lemma sum_with_Permutation f l l' : l ≡ₚ l' -> sum_with f l = sum_with f l'.
Proof.
  unfold sum_with.
  induction 1 as [| x l l' _ IH | x y l | l l' l'' _ IH1 _ IH2]; cbn; lia.
Qed.

Lemma fold_left_sum_with f l a :
  fold_left (fun total s => total + f s) l a = a + sum_with f l.
Proof.
  unfold sum_with.
  revert a. induction l as [| s l IH]; intros a; cbn; [lia |]. rewrite IH. lia.
Qed.

Lemma fold_left_sum_if c f l a :
  fold_left (fun total s => if c s : bool then total + f s else total) l a
  = a + sum_with (fun s => if c s then f s else 0) l.
Proof.
  unfold sum_with.
  revert a. induction l as [| s l IH]; intros a; cbn; [lia |].
  rewrite IH. destruct (c s); lia.
Qed.

Lemma sum_with_filter p f l :
  sum_with f (List.filter p l) = sum_with (fun s => if p s then f s else 0) l.
Proof.
  unfold sum_with.
  induction l as [| s l IH]; cbn; [done |]. destruct (p s); cbn; lia.
Qed.

Lemma sum_with_pointwise f g h l :
  Forall (fun s => f s + g s = h s) l -> sum_with f l + sum_with g l = sum_with h l.
Proof. unfold sum_with. induction 1 as [| s l Hs _ IH]; cbn; lia. Qed.

(** Where the two totals do partition the day: every session of the
    store closed and of today, typed ['work'] or ['break'], and none typed
    ['work'] under the project ['BREAK']. *)
Lemma today_totals_partition now db :
  Forall (fun s => is_closed s = true /\ date_of (start_time s) = date_of now
                   /\ (session_type s = "work" \/ session_type s = "break")
                   /\ ~ (session_type s = "work" /\ project s = "BREAK"))
    (sessions db) ->
  get_today_work_seconds now db + get_today_break_seconds now db
  = total_duration (sessions db).
Proof.
  intros Hall. unfold get_today_work_seconds, get_today_break_seconds,
    get_today_sessions, total_duration.
  rewrite !fold_left_sum_with, fold_left_sum_if.
  rewrite (sum_with_Permutation _ _ _ (sorted_Permutation _ _)), sum_with_filter.
  rewrite !Z.add_0_l. apply sum_with_pointwise.
  eapply Forall_impl; [exact Hall |]. cbn.
  intros s (Hc & Hd & Hty & Hnb).
  assert (date_eqb (date_of (start_time s)) (date_of now) = true) as ->
    by (by apply date_eqb_eq).
  unfold counted_seconds, is_break. unfold is_closed in Hc.
  destruct (end_time s); [| done]. cbn.
  destruct (String.eqb_spec (session_type s) "work") as [Hw | Hw];
    destruct (String.eqb_spec (session_type s) "break") as [Hb | Hb];
    destruct (String.eqb_spec (project s) "BREAK") as [Hp | Hp]; cbn;
    try lia; try congruence; try tauto.
Qed.

(** C1. After the day described above the store holds one closed session
    of today, of type ['work'] and project ['BREAK'], lasting 600 seconds.
    It is a break by the dual-tag rule, yet [get_today_work_seconds]
    counts it, and so does [get_today_break_seconds]: the two totals add
    up to 1200 seconds, twice the duration recorded. *)
Theorem today_totals_count_break_project_twice :
  sessions stopped_db
  = [mkTimeSession "u1" nine (Some ten_past_nine) "BREAK" "Pause" 600 false "work" EmptyString]
  /\ Forall (fun s => is_closed s = true /\ date_of (start_time s) = date_of noon
                      /\ is_break s = true)
       (sessions stopped_db)
  /\ get_today_work_seconds noon stopped_db = 600
  /\ get_today_break_seconds noon stopped_db = 600
  /\ total_duration (sessions stopped_db) = 600
  /\ get_today_work_seconds noon stopped_db + get_today_break_seconds noon stopped_db
     <> total_duration (sessions stopped_db).
Proof.
  assert (sessions stopped_db
          = [mkTimeSession "u1" nine (Some ten_past_nine) "BREAK" "Pause" 600 false
               "work" EmptyString]) as E by (vm_compute; reflexivity).
  split; [exact E |]. rewrite E.
  split; [by repeat constructor |].
  assert (get_today_work_seconds noon stopped_db = 600) as Hw by (vm_compute; reflexivity).
  assert (get_today_break_seconds noon stopped_db = 600) as Hb by (vm_compute; reflexivity).
  rewrite Hw, Hb. repeat split; try done.
Qed.

(* ===================================================================== *)
(** ** The theorems at concrete stores                                    *)
(* ===================================================================== *)

Lemma create_session_second_active_witness :
  (2 <= active_count
          (sessions (fst (create_session "u2" two_past_nine "Docs" "Write" "work"
                            started_db))))%nat.
Proof.
  pose proof (create_session_second_active "u2" two_past_nine "Docs" "Write" "work"
                started_db
                (mkTimeSession "u1" nine None "General" "Daily Work" 0 true "work" EmptyString)
                ltac:(apply list_elem_of_here) eq_refl) as H.
  cbn zeta in H. destruct H as (_ & _ & _ & _ & H). exact H.
Defined.

Lemma stop_active_session_spec_witness :
  stop_active_session noon empty_db = (empty_db, None)
  /\ exists a', snd (stop_active_session ten_past_nine started_db) = Some a'
                /\ end_time a' = Some ten_past_nine /\ is_active a' = false
                /\ duration_seconds a' = 600.
Proof.
  split.
  - apply (proj1 (stop_active_session_spec noon empty_db)). constructor.
  - destruct (proj2 (stop_active_session_spec ten_past_nine started_db)
                (mkTimeSession "u1" nine None "General" "Daily Work" 0 true "work" EmptyString)
                ltac:(apply list_elem_of_here) eq_refl)
      as (i & a & a' & Hi & _ & _ & Hret & Hend & Hdur & Hact & _).
    exists a'. repeat split; try assumption.
    rewrite Hdur.
    destruct i as [| i]; [| destruct i; discriminate Hi].
    injection Hi as <-. vm_compute. reflexivity.
Defined.

Lemma remove_session_spec_witness :
  remove_session "none" started_db = (started_db, false)
  /\ exists l1 x l2, sessions started_db = l1 ++ x :: l2
       /\ remove_session "u1" started_db
          = (mkJsonDatabase (l1 ++ l2) (projects_data started_db)
               (config_data started_db), true).
Proof.
  split.
  - apply (proj1 (remove_session_spec "none" started_db)).
    repeat constructor. discriminate.
  - destruct (proj2 (remove_session_spec "u1" started_db)
                (mkTimeSession "u1" nine None "General" "Daily Work" 0 true "work" EmptyString)
                ltac:(apply list_elem_of_here) eq_refl)
      as (l1 & x & l2 & Hl & _ & _ & Hr).
    exists l1, x, l2. split; assumption.
Defined.

Lemma update_recent_combination_spec_witness :
  exists rest,
    recent_combinations
      (projects_data (update_recent_combination "Docs" "Write" started_db))
    = Some ("Docs - Write"%string :: rest)
    /\ NoDup ("Docs - Write"%string :: rest).
Proof.
  destruct (update_recent_combination_spec "Docs" "Write" started_db)
    as (rest & Hr & _ & _ & Hnd & _).
  exists rest. split; [exact Hr |]. apply Hnd.
  apply NoDup_cons. split; [apply not_elem_of_nil | apply NoDup_nil_2].
Defined.

Lemma from_dict_to_dict_witness :
  from_dict (to_dict saturday_break) = Some saturday_break.
Proof.
  apply (from_dict_to_dict saturday_break).
  - reflexivity.
  - intros e He. injection He as <-. reflexivity.
Defined.


Lemma monday_sheet_eq :
  _evaluation_sheet (sessions monday_db) monday_db = monday_sheet.
Proof. vm_compute. reflexivity. Qed.

Lemma evaluation_sheet_status_witness :
  exists row, monday_sheet = Some [row]
              /\ Sollzeit row = JFloat 8
              /\ Arbeitszeit row = PyFloat.of_Z 8
              /\ Status row = BelowTarget.
Proof.
  pose proof monday_sheet_eq as E. unfold monday_sheet in E.
  match type of E with _ = Some [?r] => exists r end.
  split; [reflexivity |]. split; [reflexivity |]. split; [reflexivity |].
  match type of E with _ = Some [?r] =>
    destruct (evaluation_sheet_status (sessions monday_db) monday_db [r] r E
                ltac:(apply list_elem_of_here))
      as (name & cfg & wh & target & work_h & _ & _ & _ & _ & Ht & Hw & _ & _ & _ & Hbelow)
  end.
  vm_compute in Ht. injection Ht as <-.
  vm_compute in Hw. injection Hw as <-.
  apply Hbelow. split; reflexivity.
Defined.

Lemma load_config_defaults_witness :
  ConfigManager.load_config (mkdisk Malformed true)
  = Some (ConfigManager.default_config,
          mkdisk (Document ConfigManager.default_config) true)
  /\ JsonDatabaseConfig.load_config (mkdisk Absent true)
     = (JsonDatabaseConfig.default_config,
        mkdisk (Document JsonDatabaseConfig.default_config) true).
Proof.
  split.
  - apply (proj1 (load_config_defaults (mkdisk Malformed true))); [reflexivity |].
    right. right. right. left. reflexivity.
  - apply (proj1 (proj2 (load_config_defaults (mkdisk Absent true)))); reflexivity.
Defined.

(* ===================================================================== *)
(** * Further properties of the code                                      *)
(* ===================================================================== *)

(** ** The sessions file                                                  *)

Lemma session_round_trip s : valid_session s -> from_dict (to_dict s) = Some s.
Proof.
  intros [Hs He]. unfold from_dict, to_dict, item.
  repeat (rewrite ?lookup_insert_eq; rewrite ?lookup_insert_ne by done).
  cbn [mbind option_bind as_str as_int as_bool default].
  rewrite IsoFacts.fromisoformat_isoformat by done. cbn [mbind option_bind].
  destruct s as [i st [e |] p t d a ty n];
    cbn [id start_time end_time project task duration_seconds is_active
         session_type note] in *.
  - rewrite end_time_of_isoformat by (by apply He). done.
  - done.
Qed.

(** X1. What [save_sessions] writes, [load_sessions] reads back as the
    same list of sessions, in the same order. *)
Theorem load_sessions_save_sessions sessions f :
  Forall valid_session sessions ->
  snd (save_sessions sessions true f) = true
  /\ load_sessions (fst (save_sessions sessions true f)) = sessions.
Proof.
  intros Hall. split; [done |]. cbn.
  assert (mapM session_record (map (fun s => JObj (to_dict s)) sessions)
          = Some sessions) as ->; [| done].
  apply mapM_Some_2. induction Hall as [| s l Hs _ IH]; cbn; constructor; try done.
  by apply session_round_trip.
Qed.

Lemma from_dict_missing_key data k :
  k ∈ required_keys -> data !! k = None -> from_dict data = None.
Proof.
  unfold required_keys. rewrite !elem_of_cons, elem_of_nil.
  unfold from_dict, item. intros Hk Hnone.
  destruct Hk as [-> | [-> | [-> | [-> | [-> | [-> | [-> | [-> | []]]]]]]]];
    repeat first
      [ rewrite Hnone; reflexivity
      | match goal with
        | |- ?m ≫= _ = None =>
            destruct m; cbn [mbind option_bind]; [| reflexivity]
        end ].
Qed.

(** X2. One record without one of the eight keys that [from_dict]
    subscripts makes [load_sessions] drop the whole file: the store starts
    empty, whatever the other records are. *)
Theorem load_sessions_missing_key items data k :
  JObj data ∈ items -> k ∈ required_keys -> data !! k = None ->
  load_sessions (Document (JArr items)) = [].
Proof.
  intros Hin Hk Hnone. cbn.
  destruct (mapM session_record items) as [l |] eqn:E; [| done].
  apply mapM_Some_1 in E.
  apply list_elem_of_lookup in Hin as [i Hi].
  destruct (Forall2_lookup_l _ _ _ _ _ E Hi) as (s & _ & Hs).
  cbn in Hs. by rewrite (from_dict_missing_key data k Hk Hnone) in Hs.
Qed.

(** X3. A record written without ['note'] is still read: the session
    comes back with an empty note. *)
Theorem from_dict_without_note s :
  valid_session s ->
  from_dict (delete "note"%string (to_dict s))
  = Some (mkTimeSession (id s) (start_time s) (end_time s) (project s) (task s)
            (duration_seconds s) (is_active s) (session_type s) EmptyString).
Proof.
  intros [Hs He]. unfold from_dict, to_dict, item.
  repeat (rewrite ?lookup_delete_eq; rewrite ?lookup_delete_ne by done;
          rewrite ?lookup_insert_eq; rewrite ?lookup_insert_ne by done).
  cbn [mbind option_bind as_str as_int as_bool default].
  rewrite IsoFacts.fromisoformat_isoformat by done. cbn [mbind option_bind].
  destruct s as [i st [e |] p t d a ty n];
    cbn [id start_time end_time project task duration_seconds is_active
         session_type note] in *.
  - rewrite end_time_of_isoformat by (by apply He). done.
  - done.
Qed.

(** ** Editing the store                                                  *)

Lemma JsonDatabase_eta db :
  mkJsonDatabase (sessions db) (projects_data db) (config_data db) = db.
Proof. by destruct db. Qed.

(** X4. [update_session] of a session whose identifier is in no session
    of the store returns [False] and changes nothing; otherwise it puts
    the session in the place of the first one with that identifier,
    returns [True], and leaves the other places, the number of sessions
    and the identifiers as they were. *)
Theorem update_session_spec session db :
  (Forall (fun s => id s <> id session) (sessions db) ->
   update_session session db = (db, false))
  /\ (forall s, s ∈ sessions db -> id s = id session ->
      exists i old,
        sessions db !! i = Some old /\ id old = id session
        /\ (forall j y, sessions db !! j = Some y -> (j < i)%nat -> id y <> id session)
        /\ snd (update_session session db) = true
        /\ sessions (fst (update_session session db)) !! i = Some session
        /\ (forall j, j <> i ->
              sessions (fst (update_session session db)) !! j = sessions db !! j)
        /\ length (sessions (fst (update_session session db))) = length (sessions db)
        /\ map id (sessions (fst (update_session session db))) = map id (sessions db)).
Proof.
  unfold update_session. split.
  - intros Hall.
    assert (list_find (fun s => id s = id session) (sessions db) = None) as Hf
      by (by apply list_find_None).
    by rewrite Hf.
  - intros s Hin Hid.
    destruct (list_find (fun s => id s = id session) (sessions db))
      as [[i old] |] eqn:Hf.
    + apply list_find_Some in Hf as (Hi & Hold & Hfirst).
      exists i, old. cbn. repeat split; try done.
      * apply list_lookup_insert_eq. by eapply lookup_lt_Some.
      * intros j Hj. by apply list_lookup_insert_ne.
      * apply length_insert.
      * rewrite list_fmap_insert. apply list_insert_id.
        rewrite list_lookup_fmap, Hi. cbn. by rewrite Hold.
    + apply list_find_None in Hf. rewrite Forall_forall in Hf.
      by specialize (Hf s Hin).
Qed.

(** X5. [remove_session] undoes [add_session] when the identifier of the
    added session is not yet in the store. *)
Theorem remove_session_add_session sid start end_ p t ty n db :
  Forall (fun s => id s <> sid) (sessions db) ->
  remove_session sid (fst (add_session sid start end_ p t ty n db)) = (db, true).
Proof.
  intros Hfresh. unfold remove_session.
  set (new := snd (add_session sid start end_ p t ty n db)).
  assert (sessions (fst (add_session sid start end_ p t ty n db))
          = sessions db ++ [mkTimeSession sid start end_ p t
               (match end_ with Some e => int_total_seconds (sub e start) | None => 0 end)
               (match end_ with Some _ => false | None => true end) ty n]) as E
    by (by destruct end_).
  assert (projects_data (fst (add_session sid start end_ p t ty n db)) = projects_data db)
    as Ep by (by destruct end_).
  assert (config_data (fst (add_session sid start end_ p t ty n db)) = config_data db)
    as Ec by (by destruct end_).
  rewrite E, Ep, Ec. clear E Ep Ec new.
  match goal with |- context [list_find ?P (?l ++ [?x])] =>
    destruct (list_find P (l ++ [x])) as [[i y] |] eqn:Hf end.
  - apply list_find_Some in Hf as (Hi & Hy & _).
    assert (i = length (sessions db)) as ->.
    { destruct (decide (i < length (sessions db))%nat) as [Hlt | Hge].
      - rewrite lookup_app_l in Hi by done. rewrite Forall_forall in Hfresh.
        apply list_elem_of_lookup_2 in Hi. by destruct (Hfresh _ Hi).
      - apply lookup_lt_Some in Hi. rewrite length_app in Hi. cbn in Hi. lia. }
    rewrite delete_middle, app_nil_r, JsonDatabase_eta. done.
  - apply list_find_None in Hf. rewrite Forall_app, Forall_singleton in Hf.
    by destruct Hf as [_ Hf].
Qed.

(** X6. When a session of the store already has the identifier given to
    [add_session], [remove_session] of that identifier removes the
    earlier session and keeps the one just added. *)
Theorem remove_session_add_session_duplicate sid start end_ p t ty n db l1 x l2 :
  sessions db = l1 ++ x :: l2 -> id x = sid ->
  Forall (fun s => id s <> sid) l1 ->
  exists new,
    snd (add_session sid start end_ p t ty n db) = Some new /\ id new = sid
    /\ remove_session sid (fst (add_session sid start end_ p t ty n db))
       = (mkJsonDatabase (l1 ++ l2 ++ [new]) (projects_data db) (config_data db), true).
Proof.
  intros Hl Hx Hl1.
  exists (mkTimeSession sid start end_ p t
            (match end_ with Some e => int_total_seconds (sub e start) | None => 0 end)
            (match end_ with Some _ => false | None => true end) ty n).
  split; [by destruct end_ |]. split; [done |].
  unfold remove_session.
  assert (sessions (fst (add_session sid start end_ p t ty n db))
          = l1 ++ x :: (l2 ++ [mkTimeSession sid start end_ p t
               (match end_ with Some e => int_total_seconds (sub e start) | None => 0 end)
               (match end_ with Some _ => false | None => true end) ty n])) as E.
  { destruct end_; cbn; rewrite Hl, <- app_assoc; done. }
  assert (projects_data (fst (add_session sid start end_ p t ty n db)) = projects_data db)
    as Ep by (by destruct end_).
  assert (config_data (fst (add_session sid start end_ p t ty n db)) = config_data db)
    as Ec by (by destruct end_).
  rewrite E, Ep, Ec. clear E Ep Ec.
  match goal with |- context [list_find ?P (l1 ++ x :: ?r)] =>
    assert (list_find P (l1 ++ x :: r) = Some (length l1, x)) as Hf end.
  { apply list_find_Some. split; [| split].
    - by rewrite list_lookup_middle.
    - done.
    - intros j y Hj Hlt. rewrite lookup_app_l in Hj by done.
      rewrite Forall_forall in Hl1. apply Hl1. by eapply list_elem_of_lookup_2. }
  rewrite Hf, delete_middle. done.
Qed.

(** ** Today's sessions                                                   *)

Lemma lex_ltb_asym a b : lex_ltb a b = true -> lex_ltb b a = false.
Proof.
  revert b. induction a as [| x a IH]; intros [| y b]; cbn; try done.
  rewrite orb_true_iff, andb_true_iff, Z.ltb_lt, Z.eqb_eq.
  intros [Hlt | [-> Hab]].
  - apply orb_false_iff. split; [apply Z.ltb_ge; lia |].
    apply andb_false_iff. left. apply Z.eqb_neq. lia.
  - rewrite Z.ltb_irrefl, Z.eqb_refl. cbn. by apply IH.
Qed.

Lemma sorted_insert_Sorted {A} (ltb : A -> A -> bool) x l :
  (forall a b, ltb a b = true -> ltb b a = false) ->
  Sorted (fun a b => ltb b a = false) l ->
  Sorted (fun a b => ltb b a = false) (sorted_insert ltb x l).
Proof.
  intros Hasym. induction 1 as [| y l Hs IH Hhd]; cbn.
  - by repeat constructor.
  - destruct (ltb y x) eqn:E.
    + constructor; [exact IH |].
      destruct Hhd as [| z l Hz]; cbn.
      * constructor. by apply Hasym.
      * destruct (ltb z x); constructor; [done | by apply Hasym].
    + constructor; [by constructor | by constructor].
Qed.

Lemma sorted_Sorted {A} (ltb : A -> A -> bool) l :
  (forall a b, ltb a b = true -> ltb b a = false) ->
  Sorted (fun a b => ltb b a = false) (sorted ltb l).
Proof.
  intros Hasym. induction l as [| x l IH]; cbn; [constructor |].
  by apply sorted_insert_Sorted.
Qed.

(** X7. [get_today_sessions] returns the sessions of the store that
    started today (and have the type asked for), each once, none else,
    ordered by start time: no session is followed by one that started
    earlier. *)
Theorem get_today_sessions_spec today ty db :
  get_today_sessions today ty db ≡ₚ List.filter (today_of_type today ty) (sessions db)
  /\ (forall s, s ∈ get_today_sessions today ty db <->
                s ∈ sessions db /\ date_of (start_time s) = today
                /\ match ty with Some ty => session_type s = ty | None => True end)
  /\ Sorted (fun a b => datetime_ltb (start_time b) (start_time a) = false)
       (get_today_sessions today ty db).
Proof.
  assert (get_today_sessions today ty db
          ≡ₚ List.filter (today_of_type today ty) (sessions db)) as Hperm
    by apply sorted_Permutation.
  split; [exact Hperm |]. split.
  - intros s. rewrite Hperm, !list_elem_of_In, filter_In.
    unfold today_of_type. rewrite andb_true_iff, date_eqb_eq.
    destruct ty as [ty |]; [| tauto].
    destruct (String.eqb_spec (session_type s) ty); split; intros (? & ? & ?); done.
  - unfold get_today_sessions. apply (sorted_Sorted start_ltb).
    intros a b. apply lex_ltb_asym.
Qed.

(** ** Retention sweep                                                    *)

Lemma filter_length_eq {A} (p : A -> bool) l :
  length (List.filter p l) = length l -> List.filter p l = l.
Proof.
  induction l as [| x l IH]; cbn; [done |].
  destruct (p x); cbn.
  - intros [= H]. by rewrite IH.
  - intros H. pose proof (List.filter_length_le p l). lia.
Qed.

Lemma filter_idem {A} (p : A -> bool) l :
  List.filter p (List.filter p l) = List.filter p l.
Proof.
  induction l as [| x l IH]; cbn; [done |].
  destruct (p x) eqn:E; cbn; [rewrite E, IH |]; done.
Qed.

Lemma filter_sublist {A} (p : A -> bool) l : List.filter p l `sublist_of` l.
Proof.
  induction l as [| x l IH]; cbn; [done |].
  destruct (p x); [by apply sublist_skip | by apply sublist_cons].
Qed.

(** X8. [cleanup_old_data], when the cutoff [now - days_to_keep] is a
    date Python can hold: the sessions kept are those that start at or
    after the cutoff, in the order they had; the value returned is [True]
    exactly when a session was dropped; a second sweep with the same
    cutoff drops nothing and returns [False]. *)
Theorem cleanup_old_data_spec now days_to_keep db cutoff :
  minus_days now days_to_keep = Some cutoff ->
  exists db' removed,
    cleanup_old_data now days_to_keep db = Some (db', removed)
    /\ sessions db' `sublist_of` sessions db
    /\ (forall s, s ∈ sessions db' <->
                  s ∈ sessions db /\ datetime_ltb (start_time s) cutoff = false)
    /\ (removed = false <-> sessions db' = sessions db)
    /\ projects_data db' = projects_data db /\ config_data db' = config_data db
    /\ cleanup_old_data now days_to_keep db' = Some (db', false).
Proof.
  intros Hcut. unfold cleanup_old_data. rewrite Hcut. cbn [mbind option_bind].
  set (p := fun s => negb (datetime_ltb (start_time s) cutoff)).
  eexists _, _. split; [reflexivity |]. cbn [sessions projects_data config_data].
  split; [apply filter_sublist |]. split; [| split; [| split; [done | split; [done |]]]].
  - intros s. rewrite !list_elem_of_In, filter_In. unfold p.
    by rewrite negb_true_iff.
  - rewrite Z.ltb_ge. pose proof (List.filter_length_le p (sessions db)). split.
    + intros H'. apply filter_length_eq. lia.
    + intros ->. lia.
  - rewrite filter_idem. do 2 f_equal. apply Z.ltb_ge. lia.
Qed.

(** ** How many sessions are active                                       *)

Lemma active_count_insert l i a b :
  l !! i = Some a ->
  (active_count (<[i := b]> l) + (if is_active a then 1 else 0)
   = active_count l + (if is_active b then 1 else 0))%nat.
Proof.
  intros Hi. pose proof (lookup_lt_Some _ _ _ Hi) as Hlt.
  rewrite insert_take_drop by done.
  pose proof (take_drop_middle l i a Hi) as El.
  set (l1 := take i l) in *. set (l2 := drop (S i) l) in *.
  rewrite <- El. rewrite !active_count_app.
  change (b :: l2) with ([b] ++ l2). change (a :: l2) with ([a] ++ l2).
  rewrite !active_count_app. unfold active_count at 2 5. cbn.
  destruct (is_active a), (is_active b); cbn; lia.
Qed.

Lemma active_count_none l :
  Forall (fun s => is_active s = false) l -> active_count l = 0%nat.
Proof.
  unfold active_count. induction 1 as [| s l Hs _ IH]; cbn; [done |].
  by rewrite Hs.
Qed.

Lemma active_count_stop now db :
  active_count (sessions (fst (stop_active_session now db)))
  = Nat.pred (active_count (sessions db)).
Proof.
  unfold stop_active_session.
  destruct (find_active (sessions db)) as [[i a] |] eqn:Hf; cbn [fst sessions].
  - apply find_active_Some in Hf as (Hi & Ha & _).
    pose proof (active_count_insert _ i a (stopped now a) Hi) as H.
    rewrite Ha in H. cbn in H. lia.
  - apply find_active_None in Hf. by rewrite (active_count_none _ Hf).
Qed.

Lemma active_count_create uuid now p t ty db :
  active_count (sessions (fst (create_session uuid now p t ty db)))
  = S (active_count (sessions db)).
Proof.
  cbn -[active_count]. rewrite active_count_app. unfold active_count at 2. cbn. lia.
Qed.

Lemma get_active_session_None db :
  get_active_session db = None <-> active_count (sessions db) = 0%nat.
Proof.
  unfold get_active_session. rewrite fmap_None, find_active_None. split.
  - apply active_count_none.
  - intros H0. apply Forall_forall. intros s Hin.
    destruct (is_active s) eqn:E; [| done].
    pose proof (active_count_pos _ _ Hin E). lia.
Qed.

(** X9. [stop_active_session] stops exactly one session when one is
    active: the number of active sessions goes down by one (and stays 0
    when it is 0), so of two active sessions one is still active after
    the call. *)
Theorem stop_active_session_active_count now db :
  active_count (sessions (fst (stop_active_session now db)))
  = Nat.pred (active_count (sessions db))
  /\ (snd (stop_active_session now db) = None <-> active_count (sessions db) = 0%nat).
Proof.
  split; [apply active_count_stop |].
  rewrite <- get_active_session_None. unfold get_active_session, stop_active_session.
  destruct (find_active (sessions db)) as [[i a] |]; cbn; split; done.
Qed.

Lemma active_count_quick_switch now_check now_stop now_start uuid p t o :
  active_count
    (sessions (json_db (quick_switch_project now_check now_stop now_start uuid p t o)))
  = active_count (sessions (json_db o)).
Proof.
  unfold quick_switch_project.
  destruct (py_get _ _ _) as [v |]; [| done].
  destruct (find_active (sessions (json_db o))) as [[i a] |] eqn:Hf.
  - destruct (py_number v) as [thr |]; cbn [mbind option_bind]; [| done].
    destruct (should_split now_check thr a).
    + cbn [json_db]. rewrite sessions_set_active_project_task.
      rewrite active_count_create, active_count_stop.
      apply find_active_Some in Hf as (Hi & Ha & _).
      apply list_elem_of_lookup_2 in Hi.
      pose proof (active_count_pos _ _ Hi Ha). lia.
    + cbn [json_db]. rewrite sessions_set_active_project_task. cbn [sessions].
      apply find_active_Some in Hf as (Hi & Ha & _).
      pose proof (active_count_insert _ i a (retagged p t a) Hi) as H.
      cbn in H. lia.
  - cbn [json_db]. by rewrite sessions_set_active_project_task.
Qed.

(** X10. [quick_switch_project] never changes the number of active
    sessions, whatever the configuration and the clock: it closes one and
    opens one, or retags the running one, or does nothing to the list. *)
Theorem quick_switch_project_active_count now_check now_stop now_start uuid p t o :
  active_count
    (sessions (json_db (quick_switch_project now_check now_stop now_start uuid p t o)))
  = active_count (sessions (json_db o))
  /\ (get_active_session (json_db o) = None ->
      sessions (json_db (quick_switch_project now_check now_stop now_start uuid p t o))
      = sessions (json_db o)).
Proof.
  split; [apply active_count_quick_switch |].
  unfold get_active_session, quick_switch_project. intros Hn.
  apply fmap_None in Hn. rewrite Hn.
  destruct (py_get _ _ _); done.
Qed.

Lemma active_count_toggle now_stop now_start uuid o :
  active_count (sessions (json_db (toggle_play_pause now_stop now_start uuid o)))
  = if decide (active_count (sessions (json_db o)) = 0%nat) then 1%nat
    else Nat.pred (active_count (sessions (json_db o))).
Proof.
  unfold toggle_play_pause.
  destruct (get_active_session (json_db o)) eqn:Hg.
  - assert (active_count (sessions (json_db o)) <> 0%nat) as Hne.
    { intros H0. apply get_active_session_None in H0. congruence. }
    rewrite decide_False by done.
    unfold pause_session.
    pose proof (active_count_stop now_stop (json_db o)) as Hs.
    destruct (stop_active_session now_stop (json_db o)) as [db1 [s |]] eqn:E;
      cbn in *; [done |].
    unfold stop_active_session in E.
    destruct (find_active (sessions (json_db o))) as [[i a] |]; [done |].
    injection E as <-. done.
  - pose proof (proj1 (get_active_session_None _) Hg) as H0.
    rewrite decide_True by done.
    unfold start_session. cbn [json_db].
    rewrite active_count_create, active_count_stop, H0. done.
Qed.

(** X11. The play/pause button: with no active session it starts one,
    and exactly one session is active afterwards; with active sessions it
    stops one of them and starts none. *)
Theorem toggle_play_pause_active_count now_stop now_start uuid o :
  (active_count (sessions (json_db o)) = 0%nat ->
   active_count (sessions (json_db (toggle_play_pause now_stop now_start uuid o)))
   = 1%nat
   /\ is_running (toggle_play_pause now_stop now_start uuid o) = true)
  /\ ((0 < active_count (sessions (json_db o)))%nat ->
      active_count (sessions (json_db (toggle_play_pause now_stop now_start uuid o)))
      = Nat.pred (active_count (sessions (json_db o)))
      /\ length (sessions (json_db (toggle_play_pause now_stop now_start uuid o)))
         = length (sessions (json_db o))
      /\ is_running (toggle_play_pause now_stop now_start uuid o) = false).
Proof.
  split.
  - intros H0. rewrite active_count_toggle, decide_True by done.
    split; [done |]. unfold toggle_play_pause.
    by rewrite (proj2 (get_active_session_None _) H0).
  - intros Hpos. rewrite active_count_toggle, decide_False by lia.
    split; [done |]. unfold toggle_play_pause.
    destruct (get_active_session (json_db o)) eqn:Hg.
    + unfold pause_session, stop_active_session.
      unfold get_active_session in Hg.
      destruct (find_active (sessions (json_db o))) as [[i a] |]; [| done].
      cbn. split; [apply length_insert | done].
    + apply get_active_session_None in Hg. lia.
Qed.

(** X12. At most one session is active after every sequence of play/pause
    and quick-switch actions, when at most one was active before. *)
Theorem ui_run_at_most_one_active actions o :
  (active_count (sessions (json_db o)) <= 1)%nat ->
  (active_count (sessions (json_db (ui_run actions o))) <= 1)%nat.
Proof.
  unfold ui_run. revert o. induction actions as [| a actions IH]; intros o Ho; cbn.
  - done.
  - apply IH. destruct a; cbn [ui_step].
    + rewrite active_count_toggle. case_decide; lia.
    + by rewrite active_count_quick_switch.
Qed.

(** ** Closing the window                                                 *)

Lemma store_position_dict x y m :
  (m !! "overlay_settings"%string = None
   \/ exists st, m !! "overlay_settings"%string = Some (JObj st)) ->
  exists st',
    store_position x y (JObj m)
    = Some (JObj (<["overlay_settings"%string := JObj st']> m))
    /\ st' !! "position"%string
       = Some (obj [("x"%string, JInt x); ("y"%string, JInt y)]).
Proof.
  unfold store_position. cbn [py_in mbind option_bind].
  intros [Hn | [st Hst]].
  - rewrite Hn. rewrite bool_decide_eq_false_2 by (by intros [? ?]).
    cbn. rewrite lookup_insert_eq. cbn.
    eexists. split; [by rewrite insert_insert_eq |]. by rewrite lookup_insert_eq.
  - rewrite Hst. rewrite bool_decide_eq_true_2 by eauto.
    cbn. rewrite Hst. cbn.
    eexists. split; [done |]. by rewrite lookup_insert_eq.
Qed.

Lemma stop_if_active now db :
  let db2 := match get_active_session db with
             | Some _ => fst (stop_active_session now db)
             | None => db
             end in
  active_count (sessions db2) = Nat.pred (active_count (sessions db))
  /\ length (sessions db2) = length (sessions db)
  /\ config_data db2 = config_data db.
Proof.
  cbn zeta. destruct (get_active_session db) eqn:Hg.
  - split; [apply active_count_stop |].
    unfold stop_active_session.
    destruct (find_active (sessions db)) as [[i a] |]; cbn [fst sessions config_data];
      [| done].
    split; [apply length_insert | done].
  - apply get_active_session_None in Hg. by rewrite Hg.
Qed.

(** X13. [on_closing], when the configuration is a dict whose
    ['overlay_settings'] is absent or a dict: the window position is
    stored under ['overlay_settings']['position'], the other top-level
    keys of the configuration keep their values, one active session is
    stopped, and no session is added or removed. *)
Theorem on_closing_stops_session x y now o m :
  config_data (json_db o) = JObj m ->
  (m !! "overlay_settings"%string = None
   \/ exists st, m !! "overlay_settings"%string = Some (JObj st)) ->
  active_count (sessions (json_db (on_closing x y now o)))
  = Nat.pred (active_count (sessions (json_db o)))
  /\ length (sessions (json_db (on_closing x y now o))) = length (sessions (json_db o))
  /\ exists m' st',
       config_data (json_db (on_closing x y now o)) = JObj m'
       /\ m' !! "overlay_settings"%string = Some (JObj st')
       /\ st' !! "position"%string
          = Some (obj [("x"%string, JInt x); ("y"%string, JInt y)])
       /\ forall k, k <> "overlay_settings"%string -> m' !! k = m !! k.
Proof.
  intros Hcfg Hm. unfold on_closing. rewrite Hcfg.
  destruct (store_position_dict x y m Hm) as (st' & -> & Hpos).
  cbn [json_db].
  match goal with |- context [get_active_session ?d] =>
    destruct (stop_if_active now d) as (Hcount & Hlen & Hconf) end.
  split; [exact Hcount |]. split; [exact Hlen |].
  rewrite Hconf. cbn [config_data].
  exists (<["overlay_settings"%string := JObj st']> m), st'.
  split; [done |]. split; [apply lookup_insert_eq |]. split; [done |].
  intros k Hk. by apply lookup_insert_ne.
Qed.

(** X14. [on_closing], when the configuration is not a dict, or its
    ['overlay_settings'] is there and is not a dict: storing the position
    raises, the handler of the method swallows it, and the active session
    is left running: nothing of the overlay's state changes. *)
Theorem on_closing_position_error x y now o :
  (forall m, config_data (json_db o) <> JObj m)
  \/ (exists m v, config_data (json_db o) = JObj m
                  /\ m !! "overlay_settings"%string = Some v
                  /\ forall st, v <> JObj st) ->
  on_closing x y now o = o.
Proof.
  intros H. unfold on_closing.
  assert (store_position x y (config_data (json_db o)) = None) as ->; [| done].
  unfold store_position. destruct H as [Hnd | (m & v & -> & Hv & Hnd)].
  - destruct (config_data (json_db o)) as [| | | | s | items | m]; cbn; try done.
    + by destruct (String.index 0 _ s).
    + by destruct (existsb _ items).
    + by destruct (Hnd m).
  - cbn. rewrite Hv. rewrite bool_decide_eq_true_2 by eauto. cbn. rewrite Hv. cbn.
    destruct v as [| | | | | | st]; try done. by destruct (Hnd st).
Qed.

(** ** Dotted paths of [ConfigManager]                                    *)

Lemma get_keys_obj k keys d m :
  ConfigPath.get_keys (k :: keys) d (JObj m)
  = match m !! k with
    | Some v => ConfigPath.get_keys keys d v
    | None => d
    end.
Proof. reflexivity. Qed.

Lemma set_keys_cons2 k k' rest v config :
  ConfigPath.set_keys (k :: k' :: rest) v config
  = match py_in k config with
    | None => (config, false)
    | Some present =>
        match (if present : bool then Some config
               else py_setitem k (JObj ∅) config) with
        | None => (config, false)
        | Some config1 =>
            match py_getitem k config1 with
            | None => (config1, false)
            | Some child =>
                let '(child', ok) := ConfigPath.set_keys (k' :: rest) v child in
                (match py_setitem k child' config1 with
                 | Some config2 => config2
                 | None => config1
                 end, ok)
            end
        end
    end.
Proof. reflexivity. Qed.

Lemma set_keys_empty_ok keys v :
  keys <> [] -> snd (ConfigPath.set_keys keys v (JObj ∅)) = true.
Proof.
  induction keys as [| k keys IH]; intros Hne; [done |].
  destruct keys as [| k' rest]; [done |].
  rewrite set_keys_cons2. cbn [py_in py_setitem py_getitem]. rewrite lookup_empty.
  rewrite bool_decide_eq_false_2 by (by intros [? ?]).
  cbn [py_setitem py_getitem]. rewrite lookup_insert_eq.
  specialize (IH ltac:(done)).
  destruct (ConfigPath.set_keys (k' :: rest) v (JObj ∅)) as [c ok]. exact IH.
Qed.

Lemma set_keys_get_keys keys v d config :
  snd (ConfigPath.set_keys keys v config) = true ->
  ConfigPath.get_keys keys d (fst (ConfigPath.set_keys keys v config)) = v.
Proof.
  revert config. induction keys as [| k keys IH]; intros config; [done |].
  destruct keys as [| k' rest].
  - destruct config as [| | | | | | m]; try done.
    cbn. by rewrite lookup_insert_eq.
  - destruct config as [| | | | s | items | m]; try done.
    + rewrite set_keys_cons2. cbn [py_in py_setitem py_getitem].
      by destruct (String.index 0 k s).
    + rewrite set_keys_cons2. cbn [py_in py_setitem py_getitem]. by destruct (existsb _ items).
    + rewrite set_keys_cons2. cbn [py_in py_setitem py_getitem].
      destruct (m !! k) as [c |] eqn:Hk.
      * rewrite bool_decide_eq_true_2 by eauto. cbn [py_getitem]. rewrite Hk.
        specialize (IH c).
        destruct (ConfigPath.set_keys (k' :: rest) v c) as [c' ok].
        cbn [fst snd] in *. intros ->.
        cbn [py_setitem]. rewrite get_keys_obj, lookup_insert_eq. by apply IH.
      * rewrite bool_decide_eq_false_2 by (by intros [? ?]).
        cbn [py_getitem]. rewrite lookup_insert_eq.
        specialize (IH (JObj ∅)).
        destruct (ConfigPath.set_keys (k' :: rest) v (JObj ∅)) as [c' ok].
        cbn [fst snd] in *. intros ->.
        cbn [py_setitem]. rewrite get_keys_obj, lookup_insert_eq. by apply IH.
Qed.

Lemma set_keys_failure keys v config :
  snd (ConfigPath.set_keys keys v config) = false ->
  fst (ConfigPath.set_keys keys v config) = config.
Proof.
  revert config. induction keys as [| k keys IH]; intros config; [done |].
  destruct keys as [| k' rest].
  - by destruct config.
  - destruct config as [| | | | s | items | m]; try done.
    + rewrite set_keys_cons2. cbn [py_in py_setitem py_getitem]. by destruct (String.index 0 k s).
    + rewrite set_keys_cons2. cbn [py_in py_setitem py_getitem]. by destruct (existsb _ items).
    + rewrite set_keys_cons2. cbn [py_in py_setitem py_getitem].
      destruct (m !! k) as [c |] eqn:Hk.
      * rewrite bool_decide_eq_true_2 by eauto. cbn [py_getitem]. rewrite Hk.
        specialize (IH c).
        destruct (ConfigPath.set_keys (k' :: rest) v c) as [c' ok].
        cbn [fst snd] in *. intros ->. rewrite IH by done.
        cbn [py_setitem]. by rewrite insert_id.
      * rewrite bool_decide_eq_false_2 by (by intros [? ?]).
        cbn [py_getitem]. rewrite lookup_insert_eq.
        pose proof (set_keys_empty_ok (k' :: rest) v ltac:(done)) as Hok.
        destruct (ConfigPath.set_keys (k' :: rest) v (JObj ∅)) as [c' ok].
        cbn [fst snd] in *. congruence.
Qed.

Lemma set_keys_top k rest v config :
  fst (ConfigPath.set_keys (k :: rest) v config) = config
  \/ exists m c, config = JObj m
       /\ fst (ConfigPath.set_keys (k :: rest) v config) = JObj (<[k := c]> m).
Proof.
  destruct rest as [| k' rest].
  - destruct config as [| | | | | | m]; try (by left). right. cbn. eauto.
  - destruct config as [| | | | s | items | m]; try (by left).
    + left. rewrite set_keys_cons2. cbn [py_in py_setitem py_getitem]. by destruct (String.index 0 k s).
    + left. rewrite set_keys_cons2. cbn [py_in py_setitem py_getitem]. by destruct (existsb _ items).
    + right. exists m. rewrite set_keys_cons2. cbn [py_in py_setitem py_getitem].
      destruct (m !! k) as [c |] eqn:Hk.
      * rewrite bool_decide_eq_true_2 by eauto. cbn [py_getitem]. rewrite Hk.
        destruct (ConfigPath.set_keys (k' :: rest) v c) as [c' ok]. cbn. eauto.
      * rewrite bool_decide_eq_false_2 by (by intros [? ?]).
        cbn [py_getitem]. rewrite lookup_insert_eq.
        destruct (ConfigPath.set_keys (k' :: rest) v (JObj ∅)) as [c' ok]. cbn.
        exists c'. by rewrite insert_insert_eq.
Qed.

Lemma split_nonempty sep key : ConfigPath.split sep key <> [].
Proof.
  destruct key as [| a key]; cbn; [done |].
  destruct (Ascii.eqb a sep); [done |]. by destruct (ConfigPath.split sep key).
Qed.

(** X15. [ConfigManager.set] followed by [get] of the same dotted key
    returns the value set, whenever [set] does not raise; and when [set]
    raises (a value that is not a dict lies on the path) the
    configuration is left exactly as it was. *)
Theorem config_set_get key v d config :
  (snd (ConfigPath.set key v config) = true ->
   ConfigPath.get key d (fst (ConfigPath.set key v config)) = v)
  /\ (snd (ConfigPath.set key v config) = false ->
      fst (ConfigPath.set key v config) = config).
Proof.
  unfold ConfigPath.get, ConfigPath.set. split.
  - apply set_keys_get_keys.
  - apply set_keys_failure.
Qed.

(** X16. [ConfigManager.set] under one top-level key does not change what
    [get] returns for a dotted key under another top-level key. *)
Theorem config_set_other_key key1 key2 v d config :
  head (ConfigPath.split "." key1) <> head (ConfigPath.split "." key2) ->
  ConfigPath.get key2 d (fst (ConfigPath.set key1 v config))
  = ConfigPath.get key2 d config.
Proof.
  unfold ConfigPath.get, ConfigPath.set.
  pose proof (split_nonempty "." key1) as H1.
  pose proof (split_nonempty "." key2) as H2.
  destruct (ConfigPath.split "." key1) as [| k1 r1]; [done |].
  destruct (ConfigPath.split "." key2) as [| k2 r2]; [done |].
  cbn [head]. intros Hne.
  destruct (set_keys_top k1 r1 v config) as [-> | (m & c & -> & ->)]; [done |].
  cbn [ConfigPath.get_keys]. rewrite lookup_insert_ne by congruence. done.
Qed.

(** X17. [ConfigManager.set] on a configuration that is a dict without
    the first component of the key always succeeds: the missing dicts are
    created on the way. *)
Theorem config_set_creates_path key v m :
  (forall k, head (ConfigPath.split "." key) = Some k -> m !! k = None) ->
  snd (ConfigPath.set key v (JObj m)) = true.
Proof.
  unfold ConfigPath.set.
  pose proof (split_nonempty "." key) as Hne.
  destruct (ConfigPath.split "." key) as [| k [| k' rest]]; [done | done |].
  intros Hk. specialize (Hk k eq_refl).
  rewrite set_keys_cons2. cbn [py_in]. rewrite Hk.
  rewrite bool_decide_eq_false_2 by (by intros [? ?]).
  cbn [py_setitem py_getitem]. rewrite lookup_insert_eq.
  pose proof (set_keys_empty_ok (k' :: rest) v ltac:(done)) as Hok.
  destruct (ConfigPath.set_keys (k' :: rest) v (JObj ∅)) as [c ok]. exact Hok.
Qed.

(** ** The two loaders, again                                             *)

Lemma default_config_valid :
  ConfigManager._validate_config ConfigManager.default_config = Some tt.
Proof. vm_compute. reflexivity. Qed.

(** X18. [ConfigManager.load_config] is stable: when it returns, loading
    again from the file it left gives the same configuration and leaves
    the file as it is. *)
Theorem config_manager_load_twice d config d' :
  ConfigManager.load_config d = Some (config, d') ->
  ConfigManager.load_config d' = Some (config, d').
Proof.
  assert (forall e cfg e', ConfigManager._create_default_config e = Some (cfg, e') ->
            ConfigManager.load_config e' = Some (cfg, e')) as Hdef.
  { intros e cfg e'. unfold ConfigManager._create_default_config, write_config.
    destruct (config_writable e); [| done]. cbn. intros [= <- <-].
    unfold ConfigManager.load_config. cbn [config_file].
    by rewrite default_config_valid. }
  unfold ConfigManager.load_config at 1.
  destruct (config_file d) as [| | | | doc] eqn:Hf; try (by apply Hdef).
  - destruct (ConfigManager._create_default_config d) as [[cfg e'] |] eqn:Hc;
      [| done].
    intros [= <- <-]. by apply (Hdef d).
  - destruct (ConfigManager._validate_config doc) as [[] |] eqn:Hv; [| by apply Hdef].
    intros [= <- <-]. unfold ConfigManager.load_config. by rewrite Hf, Hv.
Qed.

(** X19. [JsonDatabase.load_config] never writes to a file that exists,
    and a configuration it leaves that is a dict always has the key
    ['auto_split_minutes']. *)
Theorem store_load_config_spec d :
  (config_file d <> Absent -> snd (JsonDatabaseConfig.load_config d) = d)
  /\ (forall m, fst (JsonDatabaseConfig.load_config d) = JObj m ->
      is_Some (m !! "auto_split_minutes"%string)).
Proof.
  assert (forall m, JsonDatabaseConfig.default_config = JObj m ->
            is_Some (m !! "auto_split_minutes"%string)) as Hdef.
  { intros m [= <-]. vm_compute. eauto. }
  unfold JsonDatabaseConfig.load_config.
  destruct (config_file d) as [| | | | doc]; cbn; split; try done;
    try (intros _ m; by apply Hdef); try (intros m; by apply Hdef).
  - destruct doc as [| | | | s | items | m]; cbn; try done.
    + by destruct (String.index 0 _ s).
    + by destruct (existsb _ items).
    + by destruct (bool_decide _).
  - destruct doc as [| | | | s | items | m]; cbn; try (intros m'; by apply Hdef).
    + destruct (String.index 0 _ s); cbn; [done | intros m'; by apply Hdef].
    + destruct (existsb _ items); cbn; [done | intros m'; by apply Hdef].
    + case_bool_decide as Hk; cbn; intros m' [= <-]; [done |].
      rewrite lookup_insert_eq. eauto.
Qed.

(** ** Recent combinations, again                                         *)

Lemma recent_updated_cons c r :
  recent_updated c r
  = c :: take 9 (if bool_decide (c ∈ r) then list_remove_first c r else r).
Proof. reflexivity. Qed.

Lemma recent_updated_twice c r :
  recent_updated c (recent_updated c r) = recent_updated c r.
Proof.
  rewrite (recent_updated_cons c r). set (r' := take 9 _).
  rewrite recent_updated_cons.
  rewrite bool_decide_eq_true_2 by apply list_elem_of_here.
  cbn [list_remove_first]. rewrite String.eqb_refl.
  f_equal. subst r'. rewrite take_take. f_equal.
Qed.

(** X20. [update_recent_combination] with the same project and task a
    second time changes nothing. *)
Theorem update_recent_combination_twice p t db :
  update_recent_combination p t (update_recent_combination p t db)
  = update_recent_combination p t db.
Proof.
  unfold update_recent_combination.
  cbn -[recent_updated combination_of].
  by rewrite recent_updated_twice.
Qed.

(** X21. Most recent first: after two updates with different
    combinations the list starts with the second, followed by the first. *)
Theorem update_recent_combination_most_recent_first p1 t1 p2 t2 db :
  combination_of p1 t1 <> combination_of p2 t2 ->
  exists rest,
    get_recent_combinations
      (update_recent_combination p2 t2 (update_recent_combination p1 t1 db))
    = combination_of p2 t2 :: combination_of p1 t1 :: rest.
Proof.
  intros Hne. unfold get_recent_combinations, update_recent_combination.
  cbn -[recent_updated combination_of].
  set (c1 := combination_of p1 t1) in *. set (c2 := combination_of p2 t2) in *.
  rewrite (recent_updated_cons c1 (default [] _)).
  set (r := take 9 _).
  rewrite recent_updated_cons.
  case_bool_decide.
  - cbn [list_remove_first].
    destruct (String.eqb_spec c2 c1) as [-> | _]; [done |]. cbn. eauto.
  - cbn. eauto.
Qed.

(** ** The daily evaluation sheet, again                                  *)

Lemma by_date_append_keys key s g :
  map fst (by_date_append key s g)
  = if decide (key ∈ map fst g) then map fst g else map fst g ++ [key].
Proof.
  induction g as [| [k0 l0] g IH]; cbn.
  - rewrite decide_False by apply not_elem_of_nil. done.
  - destruct (date_eqb k0 key) eqn:E; cbn.
    + apply date_eqb_eq in E as ->. rewrite decide_True by apply list_elem_of_here. done.
    + assert (k0 <> key) as Hne by (rewrite <- date_eqb_eq; congruence).
      rewrite IH. destruct (decide (key ∈ map fst g)) as [Hin | Hnin].
      * rewrite decide_True by (by apply list_elem_of_further). done.
      * rewrite decide_False; [done |].
        rewrite elem_of_cons. intros [? | ?]; congruence.
Qed.

Lemma by_date_fold_keys l acc :
  NoDup (map fst acc) ->
  let groups :=
    fold_left
      (fun groups s =>
         if is_closed s then by_date_append (date_of (start_time s)) s groups
         else groups) l acc in
  NoDup (map fst groups)
  /\ forall k, k ∈ map fst groups <-> k ∈ map fst acc \/ has_closed_session l k.
Proof.
  cbn zeta. revert acc. induction l as [| s l IH]; intros acc Hnd; cbn.
  - split; [done |]. intros k. split; [by left |].
    intros [? | (s & Hs & _)]; [done |]. by apply elem_of_nil in Hs.
  - set (acc' := if is_closed s then by_date_append (date_of (start_time s)) s acc
                 else acc).
    assert (NoDup (map fst acc')
            /\ forall k, k ∈ map fst acc' <->
                 k ∈ map fst acc
                 \/ (is_closed s = true /\ date_of (start_time s) = k)) as [Hnd' Hk'].
    { subst acc'. destruct (is_closed s).
      - rewrite by_date_append_keys. case_decide as Hin.
        + split; [done |]. intros k. split; [by left |].
          intros [? | [_ <-]]; done.
        + split.
          * apply NoDup_app. split; [done |]. split; [| apply NoDup_singleton].
            intros x Hx ->%list_elem_of_singleton. done.
          * intros k. rewrite elem_of_app, list_elem_of_singleton.
            split; [intros [? | ->]; [by left | by right] |].
            intros [? | [_ <-]]; [by left | by right].
      - split; [done |]. intros k. split; [by left |]. by intros [? | [? _]]. }
    destruct (IH acc' Hnd') as [Hnd'' Hk'']. split; [done |].
    intros k. rewrite Hk'', Hk'. unfold has_closed_session. split.
    + intros [[? | [Hc Hd]] | (s' & Hs' & Hc & Hd)]; [by left | |].
      * right. exists s. split; [apply list_elem_of_here | done].
      * right. exists s'. split; [by apply list_elem_of_further | done].
    + intros [? | (s' & Hs' & Hc & Hd)]; [by left; left |].
      apply elem_of_cons in Hs' as [-> | Hs'].
      * left. right. done.
      * right. exists s'. done.
Qed.

(** The dates that have a group are those with a closed session, once
    each. *)
Lemma by_date_of_keys sessions :
  NoDup (map fst (by_date_of sessions))
  /\ forall k, k ∈ map fst (by_date_of sessions) <-> has_closed_session sessions k.
Proof.
  destruct (by_date_fold_keys sessions [] (NoDup_nil_2)) as [Hnd Hk].
  split; [exact Hnd |]. intros k. unfold by_date_of. rewrite Hk.
  split; [| by right]. intros [Hn | ?]; [| done]. by apply elem_of_nil in Hn.
Qed.

Lemma closed_on_closed d sessions :
  Forall (fun s => is_closed s = true) (closed_on d sessions).
Proof.
  apply Forall_forall. intros s. unfold closed_on.
  rewrite list_elem_of_In, filter_In, andb_true_iff. tauto.
Qed.

Lemma closed_on_nonempty d sessions :
  has_closed_session sessions d -> closed_on d sessions <> [].
Proof.
  intros (s & Hs & Hc & Hd) Hnil.
  assert (s ∈ closed_on d sessions) as Hin.
  { unfold closed_on. rewrite list_elem_of_In, filter_In, andb_true_iff.
    rewrite <- list_elem_of_In, date_eqb_eq. done. }
  rewrite Hnil in Hin. by apply elem_of_nil in Hin.
Qed.

Lemma weekday_name key :
  exists name, weekdays !! Z.to_nat (weekday key) = Some name.
Proof.
  apply lookup_lt_is_Some. unfold weekday, weekdays. cbn [length].
  pose proof (Z.mod_pos_bound (date_toordinal key + 6) 7 ltac:(lia)). lia.
Qed.

Lemma sum_seconds_is_Some l :
  Forall (fun s => is_closed s = true) l -> is_Some (sum_seconds l).
Proof.
  unfold sum_seconds. intros Hclosed.
  assert (is_Some (Some PyFloat.zero)) as Hacc by (by eexists).
  revert Hacc. generalize (Some PyFloat.zero). induction Hclosed as [| x l Hx _ IH]; intros acc Hacc; cbn; [done |].
  apply IH. destruct Hacc as [total ->]. cbn [mbind option_bind].
  unfold span_seconds, is_closed in *. destruct (end_time x); [by eexists | done].
Qed.

Lemma hours_of_is_Some l :
  Forall (fun s => is_closed s = true) l -> is_Some (hours_of l).
Proof.
  intros H. unfold hours_of. destruct (sum_seconds_is_Some l H) as [total ->].
  by eexists.
Qed.

Lemma Forall_list_filter {A} (P : A -> Prop) (f : A -> bool) l :
  Forall P l -> Forall P (List.filter f l).
Proof.
  rewrite !Forall_forall. intros H x Hx.
  apply list_elem_of_In, filter_In in Hx as [Hx _]. by apply H, list_elem_of_In.
Qed.

Lemma target_number_in_range v :
  number_in_float_range v = true ->
  exists t, target_number v = Some t /\ forall work_h, is_Some (minus_target work_h t).
Proof.
  destruct v as [| b | n | q | | |]; try done; cbn; intros H.
  - eexists. split; [done |]. intros work_h. cbn. by destruct b.
  - eexists. split; [done |]. intros work_h. cbn. by rewrite H.
  - eexists. split; [done |]. intros work_h. by eexists.
Qed.

Lemma day_row_is_Some cfg wh config key l :
  config = JObj cfg ->
  default (JObj ∅) (cfg !! "work_hours"%string) = JObj wh ->
  (forall name v, wh !! name = Some v -> number_in_float_range v = true) ->
  1000 <= d_year key ->
  l <> [] -> Forall (fun s => is_closed s = true) l ->
  is_Some (day_row config key l).
Proof.
  intros -> Hwh Hnum Hyear Hne Hclosed. unfold day_row.
  destruct (hours_of_is_Some (day_work l)) as [work_h Hw];
    [by apply Forall_list_filter |].
  destruct (hours_of_is_Some (day_breaks l)) as [break_h Hb];
    [by apply Forall_list_filter |].
  unfold work_hours, break_hours. rewrite Hw, Hb. cbn [mbind option_bind].
  pose proof (sorted_Permutation start_ltb l) as Hperm.
  assert (sorted start_ltb l <> []) as Hne'.
  { intros E. rewrite E in Hperm. by apply Permutation_nil_l in Hperm. }
  destruct (proj2 (head_is_Some _) Hne') as [first ->]. cbn [mbind option_bind].
  destruct (proj2 (last_is_Some _) Hne') as [final Hfinal]. rewrite Hfinal.
  cbn [mbind option_bind].
  assert (is_closed final = true) as Hfc.
  { apply last_Some_elem_of in Hfinal. rewrite Hperm in Hfinal.
    rewrite Forall_forall in Hclosed. by apply Hclosed. }
  unfold is_closed in Hfc. destruct (end_time final) as [final_end |]; [| done].
  cbn [mbind option_bind].
  unfold strptime_key. rewrite (proj2 (Z.ltb_ge _ _) Hyear). cbn [mbind option_bind].
  destruct (weekday_name key) as [name ->]. cbn [mbind option_bind].
  unfold target_of. cbn [py_get mbind option_bind]. rewrite Hwh.
  cbn [py_get mbind option_bind].
  assert (number_in_float_range (default (JFloat 8) (wh !! name)) = true) as Hr.
  { destruct (wh !! name) as [v |] eqn:E; cbn; [by eapply Hnum | done]. }
  apply target_number_in_range in Hr as (t & -> & Hdiff). cbn [mbind option_bind].
  destruct (Hdiff work_h) as [diff ->]. by eexists.
Qed.

(** X22. The daily evaluation sheet is produced when the configuration
    is a dict whose ['work_hours'] is absent or a dict that lists, for
    weekdays, floats, bools or [int]s that [float] can hold, and every
    closed session started in the year 1000 or later: no time of day,
    session type, span or missing weekday makes it fail. *)
Theorem evaluation_sheet_total sessions db cfg wh :
  config_data db = JObj cfg ->
  default (JObj ∅) (cfg !! "work_hours"%string) = JObj wh ->
  (forall name v, wh !! name = Some v -> number_in_float_range v = true) ->
  (forall s, s ∈ sessions -> is_closed s = true -> 1000 <= year (start_time s)) ->
  exists rows, _evaluation_sheet sessions db = Some rows.
Proof.
  intros Hcfg Hwh Hnum Hyear. unfold _evaluation_sheet.
  apply mapM_is_Some_2, Forall_forall. intros key Hkey. cbn.
  rewrite lookup_group_by_date_of.
  rewrite (sorted_Permutation date_str_ltb) in Hkey.
  apply (proj2 (by_date_of_keys sessions)) in Hkey.
  eapply day_row_is_Some; try done.
  - destruct Hkey as (s & Hs & Hc & <-). cbn. by apply Hyear.
  - by apply closed_on_nonempty.
  - apply closed_on_closed.
Qed.

Lemma py_number_None v : py_number v = None -> target_number v = None.
Proof. by destruct v. Qed.

(** X23. One target that is not a number, for the weekday of a date with
    a closed session, makes the whole sheet fail (and with it the export):
    no row is produced for any date. *)
Theorem evaluation_sheet_bad_target sessions db cfg wh s name v :
  config_data db = JObj cfg ->
  default (JObj ∅) (cfg !! "work_hours"%string) = JObj wh ->
  s ∈ sessions -> is_closed s = true ->
  weekdays !! Z.to_nat (weekday (date_of (start_time s))) = Some name ->
  wh !! name = Some v -> py_number v = None ->
  _evaluation_sheet sessions db = None.
Proof.
  intros Hcfg Hwh Hs Hc Hname Hv Hn. unfold _evaluation_sheet.
  apply mapM_None_2, Exists_exists. exists (date_of (start_time s)). split.
  - rewrite (sorted_Permutation date_str_ltb).
    apply (proj2 (by_date_of_keys sessions)). by exists s.
  - unfold day_row.
    destruct (work_hours _); [| done]. cbn [mbind option_bind].
    destruct (break_hours _); [| done]. cbn [mbind option_bind].
    destruct (head _); [| done]. cbn [mbind option_bind].
    destruct (last _); [| done]. cbn [mbind option_bind].
    destruct (end_time _); [| done]. cbn [mbind option_bind].
    destruct (strptime_key _) as [date_obj |] eqn:Hk; [| done].
    apply strptime_key_Some in Hk as [-> _]. cbn [mbind option_bind].
    rewrite Hname. cbn [mbind option_bind].
    unfold target_of. rewrite Hcfg. cbn [py_get mbind option_bind].
    rewrite Hwh. cbn [py_get mbind option_bind]. rewrite Hv. cbn.
    by rewrite (py_number_None v Hn).
Qed.

Lemma evaluation_sheet_dates sessions db rows :
  _evaluation_sheet sessions db = Some rows ->
  map Datum rows = sorted date_str_ltb (map fst (by_date_of sessions)).
Proof.
  unfold _evaluation_sheet. intros H. apply mapM_Some_1 in H.
  induction H as [| key row keys rows Hrow _ IH]; cbn; [done |].
  apply day_row_Some in Hrow as [-> _]. by rewrite IH.
Qed.

(** X24. The sheet has one row for each date on which a closed session
    started, and no other row; the rows are ordered by the text of the
    date, day of the month first, so by day, then month, then year. *)
Theorem evaluation_sheet_rows sessions db rows :
  _evaluation_sheet sessions db = Some rows ->
  NoDup (map Datum rows)
  /\ (forall d, d ∈ map Datum rows <-> has_closed_session sessions d)
  /\ Sorted (fun a b => lex_ltb [d_day b; d_month b; d_year b]
                                [d_day a; d_month a; d_year a] = false)
       (map Datum rows).
Proof.
  intros H. rewrite (evaluation_sheet_dates _ _ _ H).
  pose proof (sorted_Permutation date_str_ltb (map fst (by_date_of sessions))) as Hp.
  destruct (by_date_of_keys sessions) as [Hnd Hk].
  split; [by rewrite Hp |]. split.
  - intros d. by rewrite Hp.
  - apply (sorted_Sorted date_str_ltb). intros a b. apply lex_ltb_asym.
Qed.

Lemma day_work_breaks_Permutation l : day_work l ++ day_breaks l ≡ₚ l.
Proof.
  unfold day_work, day_breaks. induction l as [| x l IH]; [done |].
  cbn [List.filter].
  assert (negb (String.eqb (session_type x) "break")
          && negb (String.eqb (project x) "BREAK") = negb (is_break x)) as ->
    by (unfold is_break; by rewrite negb_orb).
  destruct (is_break x); cbn [negb].
  - rewrite <- Permutation_middle. by constructor.
  - cbn. by constructor.
Qed.

(** X25. In every row of the sheet the closed sessions that started on
    the date of the row are each counted once, as work or as break; the
    work and break cells are the two sums of hours rounded to two
    decimals, and the total cell is the sum of the unrounded hours, rounded
    to two decimals. *)
Theorem evaluation_sheet_partition sessions db rows row :
  _evaluation_sheet sessions db = Some rows -> row ∈ rows ->
  exists work_h break_h,
    day_work (closed_on (Datum row) sessions)
      ++ day_breaks (closed_on (Datum row) sessions)
      ≡ₚ closed_on (Datum row) sessions
    /\ hours_of (day_work (closed_on (Datum row) sessions)) = Some work_h
    /\ hours_of (day_breaks (closed_on (Datum row) sessions)) = Some break_h
    /\ Arbeitszeit row = PyFloat.round2 work_h
    /\ Pausenzeit row = PyFloat.round2 break_h
    /\ Gesamtzeit row = PyFloat.round2 (PyFloat.add work_h break_h).
Proof.
  unfold _evaluation_sheet. intros Hsheet Hrow.
  apply mapM_Some_1 in Hsheet.
  apply list_elem_of_lookup in Hrow as [i Hi].
  destruct (Forall2_lookup_r _ _ _ _ _ Hsheet Hi) as (key & _ & Hday).
  rewrite lookup_group_by_date_of in Hday. unfold day_row in Hday.
  unfold work_hours, break_hours in Hday.
  destruct (hours_of (day_work _)) as [work_h |] eqn:Hw; [| done].
  cbn [mbind option_bind] in Hday.
  destruct (hours_of (day_breaks _)) as [break_h |] eqn:Hb; [| done].
  cbn [mbind option_bind] in Hday.
  destruct (head _) as [first |]; [| done]. cbn [mbind option_bind] in Hday.
  destruct (last _) as [final |]; [| done]. cbn [mbind option_bind] in Hday.
  destruct (end_time final) as [final_end |]; [| done]. cbn [mbind option_bind] in Hday.
  destruct (strptime_key key) as [date_obj |]; [| done].
  cbn [mbind option_bind] in Hday.
  destruct (weekdays !! _) as [name |]; [| done]. cbn [mbind option_bind] in Hday.
  destruct (target_of _ name) as [target |]; [| done]. cbn [mbind option_bind] in Hday.
  destruct (target_number target) as [t |]; [| done]. cbn [mbind option_bind] in Hday.
  destruct (minus_target work_h t) as [diff |]; [| done].
  cbn [mbind option_bind] in Hday.
  injection Hday as <-. cbn [Gesamtzeit Arbeitszeit Pausenzeit Datum].
  exists work_h, break_h. split; [apply day_work_breaks_Permutation | done].
Qed.

(** A closed session that started before the year 1000 makes the sheet
    fail where [strptime_key] refuses the key written for its date. *)
Lemma evaluation_sheet_early_year sessions db s :
  s ∈ sessions -> is_closed s = true -> year (start_time s) < 1000 ->
  _evaluation_sheet sessions db = None.
Proof.
  intros Hs Hc Hyear. unfold _evaluation_sheet.
  apply mapM_None_2, Exists_exists. exists (date_of (start_time s)). split.
  - rewrite (sorted_Permutation date_str_ltb).
    apply (proj2 (by_date_of_keys sessions)). by exists s.
  - unfold day_row.
    destruct (work_hours _); [| done]. cbn [mbind option_bind].
    destruct (break_hours _); [| done]. cbn [mbind option_bind].
    destruct (head _); [| done]. cbn [mbind option_bind].
    destruct (last _); [| done]. cbn [mbind option_bind].
    destruct (end_time _); [| done]. cbn [mbind option_bind].
    unfold strptime_key. cbn [date_of d_year].
    by rewrite (proj2 (Z.ltb_lt _ _) Hyear).
Qed.

(** An [int] target too large for a float, for the weekday of a date with
    a closed session, makes the sheet fail. *)
Lemma evaluation_sheet_huge_target sessions db cfg wh s name n :
  config_data db = JObj cfg ->
  default (JObj ∅) (cfg !! "work_hours"%string) = JObj wh ->
  s ∈ sessions -> is_closed s = true ->
  weekdays !! Z.to_nat (weekday (date_of (start_time s))) = Some name ->
  wh !! name = Some (JInt n) -> PyFloat.is_finite (PyFloat.of_Z n) = false ->
  _evaluation_sheet sessions db = None.
Proof.
  intros Hcfg Hwh Hs Hc Hname Hv Hn. unfold _evaluation_sheet.
  apply mapM_None_2, Exists_exists. exists (date_of (start_time s)). split.
  - rewrite (sorted_Permutation date_str_ltb).
    apply (proj2 (by_date_of_keys sessions)). by exists s.
  - unfold day_row.
    destruct (work_hours _); [| done]. cbn [mbind option_bind].
    destruct (break_hours _); [| done]. cbn [mbind option_bind].
    destruct (head _); [| done]. cbn [mbind option_bind].
    destruct (last _); [| done]. cbn [mbind option_bind].
    destruct (end_time _); [| done]. cbn [mbind option_bind].
    destruct (strptime_key _) as [date_obj |] eqn:Hk; [| done].
    apply strptime_key_Some in Hk as [-> _]. cbn [mbind option_bind].
    rewrite Hname. cbn [mbind option_bind].
    unfold target_of. rewrite Hcfg. cbn [py_get mbind option_bind].
    rewrite Hwh. cbn [py_get mbind option_bind]. rewrite Hv.
    change (default (JFloat 8) (Some (JInt n))) with (JInt n).
    cbn [target_number mbind option_bind]. unfold minus_target. by rewrite Hn.
Qed.

(** ** A session of today in the totals                                   *)

Lemma sum_with_app f l1 l2 : sum_with f (l1 ++ l2) = sum_with f l1 + sum_with f l2.
Proof. unfold sum_with. induction l1 as [| x l1 IH]; cbn; lia. Qed.

Lemma get_today_work_seconds_sum now db :
  get_today_work_seconds now db
  = sum_with (fun s => if today_of_type (date_of now) (Some "work"%string) s
                       then counted_seconds now s else 0) (sessions db).
Proof.
  unfold get_today_work_seconds, get_today_sessions.
  rewrite fold_left_sum_with, Z.add_0_l.
  rewrite (sum_with_Permutation _ _ _ (sorted_Permutation _ _)).
  apply sum_with_filter.
Qed.

Lemma get_today_break_seconds_sum now db :
  get_today_break_seconds now db
  = sum_with (fun s => if date_eqb (date_of (start_time s)) (date_of now) && is_break s
                       then counted_seconds now s else 0) (sessions db).
Proof.
  unfold get_today_break_seconds. by rewrite fold_left_sum_if, Z.add_0_l.
Qed.

Lemma find_active_snoc l s :
  Forall (fun x => is_active x = false) l -> is_active s = true ->
  find_active (l ++ [s]) = Some (length l, s).
Proof.
  intros Hl Hs. apply find_active_Some. split; [| split].
  - by rewrite list_lookup_middle.
  - done.
  - intros j b Hj Hlt. rewrite lookup_app_l in Hj by done.
    rewrite Forall_forall in Hl. apply Hl. by eapply list_elem_of_lookup_2.
Qed.

(** X26. A work session started today with [create_session] and ended
    with [stop_active_session], in a store without another active
    session, adds the whole seconds between start and stop to today's
    work total; it adds the same seconds to today's break total as well
    when its project is ['BREAK'], and nothing otherwise. *)
Theorem started_and_stopped_session_in_totals uuid t0 t1 now p t db :
  Forall (fun s => is_active s = false) (sessions db) ->
  date_of t0 = date_of now ->
  let db' := fst (stop_active_session t1
                    (fst (create_session uuid t0 p t "work" db))) in
  let seconds := Z.quot (sub t1 t0) 1000000 in
  get_today_work_seconds now db' = get_today_work_seconds now db + seconds
  /\ get_today_break_seconds now db'
     = get_today_break_seconds now db + (if String.eqb p "BREAK" then seconds else 0).
Proof.
  intros Hinactive Hdate. cbn zeta.
  assert (sessions (fst (stop_active_session t1
                           (fst (create_session uuid t0 p t "work" db))))
          = sessions db ++ [mkTimeSession uuid t0 (Some t1) p t
                              (Z.quot (sub t1 t0) 1000000) false "work" EmptyString]) as E.
  { unfold stop_active_session. cbn [create_session fst sessions update_recent_combination].
    rewrite (find_active_snoc (sessions db)) by done.
    cbn [fst sessions]. rewrite insert_app_r_alt by done.
    by rewrite Nat.sub_diag. }
  rewrite !get_today_work_seconds_sum, !get_today_break_seconds_sum, E.
  rewrite !sum_with_app.
  assert (date_eqb (date_of t0) (date_of now) = true) as Hd by (by apply date_eqb_eq).
  unfold sum_with, today_of_type, counted_seconds, is_break. cbn.
  rewrite !Hd. cbn. split; [lia |]. destruct (String.eqb p "BREAK"); lia.
Qed.

(** ** The further properties at concrete stores                          *)

Lemma valid_saturday_break : Forall valid_session [saturday_break].
Proof.
  constructor; [| constructor].
  split; [reflexivity |]. intros e He. injection He as <-. reflexivity.
Defined.

Lemma load_sessions_save_sessions_witness :
  load_sessions (fst (save_sessions [saturday_break] true Absent)) = [saturday_break].
Proof.
  exact (proj2 (load_sessions_save_sessions [saturday_break] Absent valid_saturday_break)).
Defined.

Lemma load_sessions_missing_key_witness :
  load_sessions
    (Document (JArr [JObj (to_dict saturday_break);
                     JObj (delete "id"%string (to_dict saturday_break))])) = [].
Proof.
  apply (load_sessions_missing_key _ (delete "id"%string (to_dict saturday_break))
           "id"%string).
  - apply list_elem_of_further, list_elem_of_here.
  - apply list_elem_of_here.
  - apply lookup_delete_eq.
Defined.

Lemma from_dict_without_note_witness :
  from_dict (delete "note"%string (to_dict saturday_break)) = Some saturday_break.
Proof.
  apply (from_dict_without_note saturday_break).
  split; [reflexivity |]. intros e He. injection He as <-. reflexivity.
Defined.

Lemma update_session_spec_witness :
  update_session saturday_break started_db = (started_db, false)
  /\ exists i,
       sessions (fst (update_session
                        (mkTimeSession "u1" nine (Some noon) "Docs" "Write" 10800 false
                           "work" "edited") started_db)) !! i
       = Some (mkTimeSession "u1" nine (Some noon) "Docs" "Write" 10800 false
                 "work" "edited").
Proof.
  split.
  - apply (proj1 (update_session_spec saturday_break started_db)).
    repeat constructor. discriminate.
  - destruct (proj2 (update_session_spec
                       (mkTimeSession "u1" nine (Some noon) "Docs" "Write" 10800 false
                          "work" "edited") started_db)
                (mkTimeSession "u1" nine None "General" "Daily Work" 0 true "work"
                   EmptyString)
                ltac:(apply list_elem_of_here) eq_refl)
      as (i & old & _ & _ & _ & _ & Hi & _).
    exists i. exact Hi.
Defined.

Lemma remove_session_add_session_witness :
  remove_session "session_1"
    (fst (add_session "session_1" nine (Some noon) "Docs" "Write" "work" EmptyString
            started_db))
  = (started_db, true).
Proof.
  apply remove_session_add_session. repeat constructor. discriminate.
Defined.

Lemma remove_session_add_session_duplicate_witness :
  exists new,
    remove_session "u1"
      (fst (add_session "u1" noon None "Docs" "Write" "work" EmptyString started_db))
    = (mkJsonDatabase [new] (projects_data started_db) (config_data started_db), true)
    /\ start_time new = noon.
Proof.
  destruct (remove_session_add_session_duplicate "u1" noon None "Docs" "Write" "work"
              EmptyString started_db []
              (mkTimeSession "u1" nine None "General" "Daily Work" 0 true "work"
                 EmptyString) [] eq_refl eq_refl ltac:(constructor))
    as (new & Hnew & _ & Hr).
  exists new. split; [exact Hr |].
  injection Hnew as <-. reflexivity.
Defined.

Lemma cleanup_old_data_spec_witness :
  exists db', cleanup_old_data noon 90 stopped_db = Some (db', false)
              /\ sessions db' = sessions stopped_db.
Proof.
  destruct (cleanup_old_data_spec noon 90 stopped_db (mkdatetime 2023 12 12 12 0 0 0)
              eq_refl)
    as (db' & removed & Hc & _ & _ & Hrem & _).
  exists db'.
  assert (removed = false) as ->.
  { vm_compute in Hc. injection Hc as _ <-. reflexivity. }
  split; [exact Hc | apply Hrem; reflexivity].
Defined.

Lemma quick_switch_project_active_count_witness :
  sessions (json_db (quick_switch_project noon noon noon "u9" "Docs" "Write"
                       idle_overlay)) = [].
Proof.
  apply (proj2 (quick_switch_project_active_count noon noon noon "u9" "Docs" "Write"
                  idle_overlay)).
  reflexivity.
Defined.

Lemma toggle_play_pause_active_count_witness :
  active_count (sessions (json_db (toggle_play_pause nine nine "u1" idle_overlay)))
  = 1%nat
  /\ active_count
       (sessions (json_db (toggle_play_pause noon noon "u2" running_overlay)))
     = 0%nat.
Proof.
  split.
  - apply (proj1 (toggle_play_pause_active_count nine nine "u1" idle_overlay)).
    reflexivity.
  - apply (proj2 (toggle_play_pause_active_count noon noon "u2" running_overlay)).
    vm_compute. lia.
Defined.

Lemma ui_run_at_most_one_active_witness :
  (active_count
     (sessions (json_db (ui_run [PlayPause nine nine "u1";
                                 QuickSwitch ten_past_nine ten_past_nine ten_past_nine
                                   "u2" "BREAK" "Pause";
                                 PlayPause noon noon "u3";
                                 PlayPause noon noon "u4"] idle_overlay))) <= 1)%nat.
Proof.
  apply ui_run_at_most_one_active. vm_compute. lia.
Defined.

Lemma on_closing_stops_session_witness :
  active_count (sessions (json_db (on_closing 10 20 noon running_overlay))) = 0%nat.
Proof.
  destruct (on_closing_stops_session 10 20 noon running_overlay ∅ eq_refl
              (or_introl (lookup_empty _))) as (H & _).
  exact H.
Defined.

Lemma on_closing_position_error_witness :
  on_closing 10 20 noon no_dict_overlay = no_dict_overlay
  /\ active_count (sessions (json_db (on_closing 10 20 noon no_dict_overlay))) = 1%nat.
Proof.
  assert (on_closing 10 20 noon no_dict_overlay = no_dict_overlay) as E.
  { apply on_closing_position_error. left. intros m. discriminate. }
  split; [exact E |]. rewrite E. reflexivity.
Defined.

Lemma config_set_get_witness :
  ConfigPath.get "overlay.width" JNull
    (fst (ConfigPath.set "overlay.width" (JInt 300) (JObj ∅))) = JInt 300
  /\ fst (ConfigPath.set "overlay.width" (JInt 300)
            (obj [("overlay"%string, JInt 1)]))
     = obj [("overlay"%string, JInt 1)].
Proof.
  split.
  - apply (proj1 (config_set_get "overlay.width" (JInt 300) JNull (JObj ∅))).
    vm_compute. reflexivity.
  - apply (proj2 (config_set_get "overlay.width" (JInt 300) JNull
                    (obj [("overlay"%string, JInt 1)]))).
    vm_compute. reflexivity.
Defined.

Lemma config_set_other_key_witness :
  ConfigPath.get "excel_file" JNull
    (fst (ConfigPath.set "overlay.width" (JInt 300) ConfigManager.default_config))
  = ConfigPath.get "excel_file" JNull ConfigManager.default_config.
Proof.
  apply config_set_other_key. vm_compute. discriminate.
Defined.

Lemma config_set_creates_path_witness :
  snd (ConfigPath.set "a.b.c" (JInt 1) (JObj ∅)) = true.
Proof.
  apply config_set_creates_path. intros k _. apply lookup_empty.
Defined.

Lemma config_manager_load_twice_witness :
  ConfigManager.load_config (mkdisk (Document ConfigManager.default_config) true)
  = Some (ConfigManager.default_config,
          mkdisk (Document ConfigManager.default_config) true).
Proof.
  apply (config_manager_load_twice (mkdisk Malformed true)). reflexivity.
Defined.

Lemma store_load_config_spec_witness :
  snd (JsonDatabaseConfig.load_config (mkdisk Malformed true)) = mkdisk Malformed true.
Proof.
  apply (proj1 (store_load_config_spec (mkdisk Malformed true))). discriminate.
Defined.

Lemma update_recent_combination_most_recent_first_witness :
  exists rest,
    get_recent_combinations
      (update_recent_combination "Docs" "Write"
         (update_recent_combination "General" "Daily Work" empty_db))
    = "Docs - Write"%string :: "General - Daily Work"%string :: rest.
Proof.
  apply (update_recent_combination_most_recent_first
           "General" "Daily Work" "Docs" "Write" empty_db).
  vm_compute. discriminate.
Defined.

Lemma evaluation_sheet_total_witness :
  exists rows, _evaluation_sheet (sessions stopped_db) stopped_db = Some rows.
Proof.
  apply (evaluation_sheet_total (sessions stopped_db) stopped_db ∅ ∅).
  - reflexivity.
  - vm_compute. reflexivity.
  - intros name v H. rewrite lookup_empty in H. discriminate H.
  - intros s Hs _. apply list_elem_of_In in Hs.
    destruct Hs as [<- | []]. vm_compute. discriminate.
Defined.

Lemma evaluation_sheet_bad_target_witness :
  _evaluation_sheet (sessions text_target_db) text_target_db = None.
Proof.
  apply (evaluation_sheet_bad_target (sessions text_target_db) text_target_db
           (list_to_map [("work_hours"%string,
                          obj [("saturday"%string, JStr "eight")])])
           (list_to_map [("saturday"%string, JStr "eight")])
           saturday_break "saturday"%string (JStr "eight")).
  - reflexivity.
  - vm_compute. reflexivity.
  - apply list_elem_of_here.
  - reflexivity.
  - vm_compute. reflexivity.
  - vm_compute. reflexivity.
  - reflexivity.
Defined.

Lemma evaluation_sheet_rows_witness :
  exists rows, saturday_sheet = Some rows /\ NoDup (map Datum rows).
Proof.
  pose proof saturday_sheet_eq as E. unfold saturday_sheet in E.
  match type of E with _ = Some ?r =>
    exists r; split; [reflexivity |];
    exact (proj1 (evaluation_sheet_rows (sessions saturday_db) saturday_db r E))
  end.
Defined.

Lemma eighths_sheet_eq :
  _evaluation_sheet (sessions eighths_db) eighths_db = eighths_sheet.
Proof. vm_compute. reflexivity. Qed.

Lemma evaluation_sheet_partition_witness :
  exists row, eighths_sheet = Some [row]
              /\ Arbeitszeit row = PyFloat.of_Q (12 # 100)
              /\ Pausenzeit row = PyFloat.of_Q (12 # 100)
              /\ Gesamtzeit row = PyFloat.of_Q (25 # 100).
Proof.
  pose proof eighths_sheet_eq as E. unfold eighths_sheet in E.
  match type of E with _ = Some [?r] =>
    exists r; split; [reflexivity |];
    destruct (evaluation_sheet_partition (sessions eighths_db) eighths_db [r] r E
                ltac:(apply list_elem_of_here))
      as (work_h & break_h & _ & Hw & Hb & Hwork & Hbreak & Htotal)
  end.
  vm_compute in Hw. injection Hw as <-.
  vm_compute in Hb. injection Hb as <-.
  rewrite Hwork, Hbreak, Htotal. split; [| split]; vm_compute; reflexivity.
Defined.

Lemma started_and_stopped_session_in_totals_witness :
  get_today_work_seconds noon
    (fst (stop_active_session ten_past_nine
            (fst (create_session "u1" nine "BREAK" "Pause" "work" empty_db)))) = 600
  /\ get_today_break_seconds noon
       (fst (stop_active_session ten_past_nine
               (fst (create_session "u1" nine "BREAK" "Pause" "work" empty_db)))) = 600.
Proof.
  exact (started_and_stopped_session_in_totals "u1" nine ten_past_nine noon
           "BREAK" "Pause" empty_db ltac:(constructor) eq_refl).
Defined.
